(** * Drought monitoring dashboard: the alert feed and the risk summary

    A shallow embedding of the client-side logic of the dashboard:

    - [WelcomeCard]: the risk classifier of the welcome card
      ([getRiskLevel], [getRiskColor]);
    - [AlertsPanel]: the alert feed component: the sort comparator and
      [filterAlerts], the read tracking kept in [localStorage]
      ([isAlertRead], [markAsRead]), [fetchAlerts] and what the component
      renders;
    - [App]: the page, which can mount the feed component twice over one
      [localStorage].

    JavaScript values are modelled by what the code can observe of them:
    numbers that may be [NaN], strings, [undefined] as [None]. *)

From Stdlib Require Import List ZArith QArith Bool Lia Lqa.
From Stdlib Require Import String Ascii.
From Stdlib Require Import Permutation Sorted.
From Stdlib Require Import DecimalString.
Import ListNotations.

Open Scope string_scope.
Open Scope Z_scope.

(** ** JavaScript numbers and strings *)

(** A number as a comparator returns it: an integer or [NaN]. *)
Inductive number : Type :=
| Num (z : Z)
| NaN.

(** [String.prototype.toLowerCase], as far as the comparisons below can
    tell: [A]..[Z] go to [a]..[z] and every other byte is kept.  The
    strings it is compared with are plain lower-case ASCII words without
    the letter k, the one ASCII letter that a non-ASCII character (the
    Kelvin sign) lower-cases to. *)
Definition lower_char (c : ascii) : ascii :=
  let n := nat_of_ascii c in
  if (Nat.leb 65 n && Nat.leb n 90)%bool then ascii_of_nat (n + 32) else c.

Fixpoint toLowerCase (s : string) : string :=
  match s with
  | EmptyString => EmptyString
  | String c s' => String (lower_char c) (toLowerCase s')
  end.

(** Truthiness of a string-or-null value: [null] and the empty string are
    falsy. *)
Definition truthy_string (v : option string) : bool :=
  match v with
  | None => false
  | Some s => negb (String.eqb s "")
  end.

(** ** [Array.prototype.sort]

    ECMAScript sorts stably and passes the comparator's result through
    [ToNumber], reading [NaN] as [+0].  For a comparator that is consistent
    on the elements of the array the result is the one stable sorted
    arrangement, whatever algorithm the engine runs; the insertion sort
    below computes it. *)
Section ArraySort.
Context {A : Type}.
Variable comparefn : A -> A -> number.

Definition SortCompare (x y : A) : Z :=
  match comparefn x y with
  | Num z => z
  | NaN => 0
  end.

(** [x] may stand before [y]: the comparator does not put it after. *)
Definition before (x y : A) : Prop := SortCompare x y <= 0.

Fixpoint insert (x : A) (l : list A) : list A :=
  match l with
  | [] => [x]
  | y :: l' => if 0 <? SortCompare x y then y :: insert x l' else x :: y :: l'
  end.

Fixpoint sort (l : list A) : list A :=
  match l with
  | [] => []
  | x :: l' => insert x (sort l')
  end.

End ArraySort.

(** ** Numbers in template literals *)

(** An integer as a template literal prints it. *)
Definition string_of_Z (z : Z) : string :=
  NilZero.string_of_int (Z.to_int z).

Definition string_of_number (x : number) : string :=
  match x with
  | Num z => string_of_Z z
  | NaN => "NaN"
  end.

(** [x < n] for an integer literal [n]: false when [x] is [NaN]. *)
Definition number_lt (x : number) (n : Z) : bool :=
  match x with
  | Num z => z <? n
  | NaN => false
  end.

(** [Math.floor(x / n)] for a positive integer literal [n]. *)
Definition floor_div (x : number) (n : Z) : number :=
  match x with
  | Num z => Num (z / n)
  | NaN => NaN
  end.

(** [a || b] on strings that may be missing. *)
Definition string_or (a : option string) (b : option string) : option string :=
  if truthy_string a then a else b.

(** ** The user profile

    The answer of [/api/v1/users/me/], reduced to the names that the
    greetings read; [None] is a missing or null field. *)
Record account : Type := mkAccount {
  first_name : option string;
  last_name : option string;
  username : option string
}.

Record profile : Type := mkProfile {
  user : option account
}.

(** [p?.user?.field] *)
Definition account_field (field : account -> option string)
    (p : option profile) : option string :=
  match p with
  | Some {| user := Some a |} => field a
  | _ => None
  end.

(** * The welcome card *)

Module WelcomeCard.

(** The risk score handed to the classifier: a finite number, [NaN], or
    nothing at all, which is [undefined] ([Missing]) or [null] ([Null]).
    A finite double is a rational, and comparing it with 8, 6 or 4 is
    exact. *)
Inductive risk_value : Type :=
| Finite (q : Q)
| NotANumber
| Missing
| Null.

(** [!risk]: true for [undefined], [null], [NaN] and zero. *)
Definition falsy (risk : risk_value) : bool :=
  match risk with
  | Finite q => Qeq_bool q 0
  | NotANumber => true
  | Missing => true
  | Null => true
  end.

(** [risk >= n] for a number literal [n].  In a comparison [undefined]
    converts to [NaN], which compares false, and [null] converts to 0. *)
Definition ge (risk : risk_value) (n : Q) : bool :=
  match risk with
  | Finite q => Qle_bool n q
  | NotANumber => false
  | Missing => false
  | Null => Qle_bool n 0
  end.

Definition getRiskColor (risk : risk_value) : string :=
  if falsy risk then "text-gray-500"
  else if ge risk 8 then "text-red-600"
  else if ge risk 6 then "text-orange-500"
  else if ge risk 4 then "text-yellow-500"
  else "text-green-500".

Definition getRiskLevel (risk : risk_value) : string :=
  if falsy risk then "Unknown"
  else if ge risk 8 then "Very High"
  else if ge risk 6 then "High"
  else if ge risk 4 then "Moderate"
  else "Low".

(** [getGreeting], on the hour that [new Date().getHours()] gives. *)
Definition getGreeting (hour : Z) : string :=
  if hour <? 12 then "Good morning"
  else if hour <? 17 then "Good afternoon"
  else "Good evening".

Definition getUserName (user : option profile) : string :=
  if truthy_string (account_field first_name user) then
    match account_field first_name user with
    | Some first =>
        (first ++
         (if truthy_string (account_field last_name user) then
            match account_field last_name user with
            | Some last => " " ++ last
            | None => ""
            end
          else ""))%string
    | None => ""
    end
  else
    match string_or (account_field username user) (Some "Farmer") with
    | Some name => name
    | None => ""
    end.

(** [risk > n] and [risk < n] for a number literal [n], with the same
    conversions: [null] compares as 0. *)
Definition gt (risk : risk_value) (n : Q) : bool :=
  match risk with
  | Finite q => negb (Qle_bool q n)
  | NotANumber => false
  | Missing => false
  | Null => negb (Qle_bool 0 n)
  end.

Definition lt (risk : risk_value) (n : Q) : bool :=
  match risk with
  | Finite q => negb (Qle_bool n q)
  | NotANumber => false
  | Missing => false
  | Null => negb (Qle_bool n 0)
  end.

(** The box under "Smart Tips and Alerts". *)
Inductive tip : Type :=
| HighDroughtRisk
| LowRiskConditions
| HighHumidity
| NoTip.

(** The chain of conditionals that picks the box.  [riskSummary] is the
    [risk_score] of the summary and [weatherData] the [humidity] of the
    weather record, [None] while the record itself is null. *)
Definition smartTip (riskSummary weatherData : option risk_value) : tip :=
  match riskSummary with
  | Some score =>
      if gt score 6 then HighDroughtRisk
      else if lt score 3 then LowRiskConditions
      else match weatherData with
           | Some humidity => if gt humidity 80 then HighHumidity else NoTip
           | None => NoTip
           end
  | None =>
      match weatherData with
      | Some humidity => if gt humidity 80 then HighHumidity else NoTip
      | None => NoTip
      end
  end.

(** ** Loading the card's data *)

Record weather : Type := mkWeather {
  temperature : risk_value;
  humidity : risk_value;
  weather_condition : option string
}.

Record risk : Type := mkRisk {
  risk_score : risk_value;
  risk_level : option string
}.

Record Card : Type := mkCard {
  weatherData : option weather;
  riskSummary : option risk;
  loading : bool
}.

(** How an awaited [axios.get] ends: with a body whose [results] may be
    missing, or with an error. *)
Inductive answer (A : Type) : Type :=
| Answered (results : option (list A))
| Failed.
Arguments Answered {A} results.
Arguments Failed {A}.

(** [response.data.results?.length > 0], then [results[0]]. *)
Definition first_result {A : Type} (results : option (list A)) : option A :=
  match results with
  | Some (x :: _) => Some x
  | _ => None
  end.

Definition mockWeather : weather :=
  mkWeather (Finite 28) (Finite 65) (Some "Partly cloudy").

Definition mockRisk : risk :=
  mkRisk (Finite (42 # 10)) (Some "moderate").

(** [fetchLocationData]: the card after the call and the addresses it
    asked, in order.  The risk request is only made once the weather
    request has been answered; an error of either lands in the one
    [catch], which puts the mock data in place of both. *)
Definition fetchLocationData (w : answer weather) (r : answer risk)
    (c : Card) : Card * list string :=
  match w with
  | Failed =>
      (mkCard (Some mockWeather) (Some mockRisk) false, ["/api/v1/weather/"])
  | Answered ws =>
      let weatherData1 :=
        match first_result ws with
        | Some x => Some x
        | None => weatherData c
        end in
      match r with
      | Failed =>
          (mkCard (Some mockWeather) (Some mockRisk) false,
           ["/api/v1/weather/"; "/api/v1/risk-assessments/"])
      | Answered rs =>
          (mkCard weatherData1
                  (match first_result rs with
                   | Some x => Some x
                   | None => riskSummary c
                   end)
                  false,
           ["/api/v1/weather/"; "/api/v1/risk-assessments/"])
      end
  end.

(** What the card shows under "Drought Risk" once loading is over: the
    label and its colour, or nothing without a summary. *)
Definition riskLabel (c : Card) : option (string * string) :=
  match riskSummary c with
  | Some s => Some (getRiskLevel (risk_score s), getRiskColor (risk_score s))
  | None => None
  end.

Definition cardTip (c : Card) : tip :=
  smartTip (option_map risk_score (riskSummary c))
           (option_map humidity (weatherData c)).

End WelcomeCard.

(** * The alert feed component *)

Module AlertsPanel.

(** An alert as the API delivers it, reduced to the fields the feed logic
    reads.  [id] is the numeric primary key; [severity_level] is [None]
    when the field is missing or null; [created_at] holds the time value
    (milliseconds) of [new Date(alert.created_at)], [None] standing for an
    invalid date. *)
Record Alert : Type := mkAlert {
  id : Z;
  title : string;
  severity_level : option string;
  created_at : option Z
}.

(** ** The sort comparator of [filterAlerts] *)

(** What a property read on [severityOrder] evaluates to when it is not
    [undefined]: one of the four ranks, or an object that the literal
    inherits from [Object.prototype]. *)
Inductive value : Type :=
| Rank (z : Z)
| Inherited (key : string).

(** [severityOrder[key]] for the object literal
    [{ 'critical': 0, 'high': 1, 'medium': 2, 'low': 3 }]; [None] is
    [undefined].  The key has been lower-cased, and the lower-case property
    names that an object literal inherits are [constructor] and
    [__proto__]. *)
Definition severityOrder (key : string) : option value :=
  if String.eqb key "critical" then Some (Rank 0)
  else if String.eqb key "high" then Some (Rank 1)
  else if String.eqb key "medium" then Some (Rank 2)
  else if String.eqb key "low" then Some (Rank 3)
  else if String.eqb key "constructor" then Some (Inherited key)
  else if String.eqb key "__proto__" then Some (Inherited key)
  else None.

(** [severityOrder[a.severity_level?.toLowerCase()] ?? 4].  A missing
    severity reads the property ["undefined"], which the literal does not
    have. *)
Definition severityOf (a : Alert) : value :=
  match severity_level a with
  | None => Rank 4
  | Some s =>
      match severityOrder (toLowerCase s) with
      | Some v => v
      | None => Rank 4
      end
  end.

(** [x !== y]: numbers by value, objects by identity. *)
Definition strict_neq (x y : value) : bool :=
  match x, y with
  | Rank m, Rank n => negb (m =? n)
  | Inherited j, Inherited k => negb (String.eqb j k)
  | _, _ => true
  end.

(** [x - y]: an object operand converts to [NaN]. *)
Definition minus (x y : value) : number :=
  match x, y with
  | Rank m, Rank n => Num (m - n)
  | _, _ => NaN
  end.

(** [new Date(x) - new Date(y)] on the time values. *)
Definition date_minus (x y : option Z) : number :=
  match x, y with
  | Some t, Some u => Num (t - u)
  | _, _ => NaN
  end.

(** The arrow function handed to [filtered.sort]. *)
Definition compareAlerts (a b : Alert) : number :=
  let severityA := severityOf a in
  let severityB := severityOf b in
  if strict_neq severityA severityB then minus severityA severityB
  else date_minus (created_at b) (created_at a).

(** [alert.severity_level?.toLowerCase() === filter.toLowerCase()] *)
Definition matches_filter (filter : string) (alert : Alert) : bool :=
  match severity_level alert with
  | None => false
  | Some s => String.eqb (toLowerCase s) (toLowerCase filter)
  end.

(** [filtered] before it is sorted: the copy of [alerts], narrowed to
    the chosen tab unless that is ['all']. *)
Definition selectAlerts (alerts : list Alert) (filter : string) : list Alert :=
  if negb (String.eqb filter "all")
  then List.filter (matches_filter filter) alerts
  else alerts.

(** The list that [filterAlerts] hands to [setFilteredAlerts]. *)
Definition filterAlerts (alerts : list Alert) (filter : string) : list Alert :=
  sort compareAlerts (selectAlerts alerts filter).

(** The pair the comparator orders by, for an alert whose severity
    evaluates to a number and whose date is valid. *)
Definition sort_key (a : Alert) : option (Z * Z) :=
  match severityOf a, created_at a with
  | Rank r, Some t => Some (r, t)
  | _, _ => None
  end.

Definition comparable (a : Alert) : Prop :=
  exists r t, sort_key a = Some (r, t).

Definition has_key (r t : Z) (a : Alert) : bool :=
  match sort_key a with
  | Some (r', t') => (r' =? r) && (t' =? t)
  | None => false
  end.

(** The severity is one of the four that the table ranks, in any
    letter case. *)
Definition recognized (a : Alert) : bool :=
  match severity_level a with
  | None => false
  | Some s =>
      let k := toLowerCase s in
      String.eqb k "critical" || String.eqb k "high"
      || String.eqb k "medium" || String.eqb k "low"
  end.

(** ** What lies outside the component *)

Record location : Type := mkLocation { lat : Q; lng : Q }.

(** A request issued through [axios.get]: the path and the [lat]/[lon]
    query when the user location is known. *)
Record request : Type := mkRequest {
  url : string;
  query : option location
}.

(** The browser side: the [readAlerts] item of [localStorage], decoded
    from its JSON text ([None] when the item is absent), and the requests
    sent so far, oldest first. *)
Record Env : Type := mkEnv {
  readAlerts : option (list Z);
  requests : list request
}.

(** [JSON.parse(localStorage.getItem('readAlerts') || '[]')] *)
Definition storedReadAlerts (env : Env) : list Z :=
  match readAlerts env with
  | Some l => l
  | None => []
  end.

Definition includes (l : list Z) (x : Z) : bool := existsb (Z.eqb x) l.

Definition isAlertRead (env : Env) (alertId : Z) : bool :=
  includes (storedReadAlerts env) alertId.

(** ** Component state *)

Record Panel : Type := mkPanel {
  alerts : list Alert;
  filteredAlerts : list Alert;
  loading : bool;
  filter : string;
  unreadCount : Z;
  error : option string
}.

(** The [useState] initial values. *)
Definition initial : Panel :=
  {| alerts := []; filteredAlerts := []; loading := false; filter := "all";
     unreadCount := 0; error := None |}.

Definition setAlerts (v : list Alert) (p : Panel) : Panel :=
  {| alerts := v; filteredAlerts := filteredAlerts p; loading := loading p;
     filter := filter p; unreadCount := unreadCount p; error := error p |}.

Definition setFilteredAlerts (v : list Alert) (p : Panel) : Panel :=
  {| alerts := alerts p; filteredAlerts := v; loading := loading p;
     filter := filter p; unreadCount := unreadCount p; error := error p |}.

Definition setLoading (v : bool) (p : Panel) : Panel :=
  {| alerts := alerts p; filteredAlerts := filteredAlerts p; loading := v;
     filter := filter p; unreadCount := unreadCount p; error := error p |}.

Definition setFilter (v : string) (p : Panel) : Panel :=
  {| alerts := alerts p; filteredAlerts := filteredAlerts p;
     loading := loading p; filter := v; unreadCount := unreadCount p;
     error := error p |}.

Definition setUnreadCount (f : Z -> Z) (p : Panel) : Panel :=
  {| alerts := alerts p; filteredAlerts := filteredAlerts p;
     loading := loading p; filter := filter p;
     unreadCount := f (unreadCount p); error := error p |}.

Definition setError (v : option string) (p : Panel) : Panel :=
  {| alerts := alerts p; filteredAlerts := filteredAlerts p;
     loading := loading p; filter := filter p; unreadCount := unreadCount p;
     error := v |}.

(** ** Effects and handlers *)

(** The effect on [[alerts, filter]]. *)
Definition filterAlerts_effect (p : Panel) : Panel :=
  setFilteredAlerts (filterAlerts (alerts p) (filter p)) p.

(** [alerts.filter(alert => !isAlertRead(alert.id))] *)
Definition unreadAlerts (env : Env) (l : list Alert) : list Alert :=
  List.filter (fun alert => negb (isAlertRead env (id alert))) l.

(** The effect on [[alerts]]: the unread count is recomputed. *)
Definition unread_effect (env : Env) (p : Panel) : Panel :=
  let unread := Z.of_nat (List.length (unreadAlerts env (alerts p))) in
  setUnreadCount (fun _ => unread) p.

Definition markAsRead (alertId : Z) (p : Panel) (env : Env) : Panel * Env :=
  let stored := storedReadAlerts env in
  if negb (includes stored alertId) then
    (setUnreadCount (fun prev => Z.max 0 (prev - 1)) p,
     {| readAlerts := Some (stored ++ [alertId])%list;
        requests := requests env |})
  else (p, env).

(** The body of an answer: paginated ([response.data.results]) or a bare
    array. *)
Inductive response : Type :=
| Paginated (results : list Alert)
| Bare (data : list Alert).

(** How the awaited [axios.get] ends. *)
Inductive outcome : Type :=
| Resolved (r : response)
| Rejected.

(** [fetchAlerts] up to the [await]: the flags are reset and the request
    leaves. *)
Definition fetchAlerts_request (userLocation : option location)
    (p : Panel) (env : Env) : Panel * Env :=
  (setError None (setLoading true p),
   {| readAlerts := readAlerts env;
      requests := (requests env ++ [mkRequest "/api/v1/alerts/" userLocation])%list |}).

(** [fetchAlerts] after the [await], with the effects that the new
    [alerts] array triggers. *)
Definition fetchAlerts_settle (o : outcome) (p : Panel) (env : Env) : Panel :=
  match o with
  | Resolved r =>
      let results := match r with Paginated l => l | Bare l => l end in
      unread_effect env (filterAlerts_effect (setLoading false (setAlerts results p)))
  | Rejected =>
      setLoading false (setError (Some "Failed to load alerts. Please try again.") p)
  end.

(** The whole of [fetchAlerts] when nothing happens in between. *)
Definition fetchAlerts (userLocation : option location) (o : outcome)
    (p : Panel) (env : Env) : Panel * Env :=
  let '(p1, env1) := fetchAlerts_request userLocation p env in
  (fetchAlerts_settle o p1 env1, env1).

(** What can happen to a mounted panel: a fetch starts (timer, refresh or
    retry button, new user location), a fetch ends, a filter tab is
    chosen, the [i]-th listed alert is clicked. *)
Inductive event : Type :=
| Refresh
| Settle (o : outcome)
| SetFilter (key : string)
| Click (i : nat).

Definition step (userLocation : option location) (e : event)
    (p : Panel) (env : Env) : Panel * Env :=
  match e with
  | Refresh => fetchAlerts_request userLocation p env
  | Settle o => (fetchAlerts_settle o p env, env)
  | SetFilter key => (filterAlerts_effect (setFilter key p), env)
  | Click i =>
      match nth_error (filteredAlerts p) i with
      | Some alert => markAsRead (id alert) p env
      | None => (p, env)
      end
  end.

Fixpoint run (userLocation : option location) (es : list event)
    (p : Panel) (env : Env) : Panel * Env :=
  match es with
  | [] => (p, env)
  | e :: es' =>
      let '(p', env') := step userLocation e p env in
      run userLocation es' p' env'
  end.

(** The state right after mounting: the three effects have run once. *)
Definition mount (userLocation : option location) (env : Env) : Panel * Env :=
  let '(p, env') := fetchAlerts_request userLocation initial env in
  (unread_effect env' (filterAlerts_effect p), env').

(** ** What the component renders *)

Record item : Type := mkItem { alert : Alert; isRead : bool }.

(** The parts of the JSX that depend on the state: the count badge, the
    error banner, the "Loading alerts..." block, the "No alerts found"
    block (by its second line) and the listed alerts. *)
Record View : Type := mkView {
  badge : option Z;
  error_banner : option string;
  loading_notice : bool;
  empty_notice : option string;
  items : list item
}.

(** The JSX returned for a visible panel. *)
Definition view (p : Panel) (env : Env) : View :=
  {| badge := if 0 <? unreadCount p then Some (unreadCount p) else None;
     error_banner := if truthy_string (error p) then error p else None;
     loading_notice := loading p && (List.length (alerts p) =? 0)%nat;
     empty_notice :=
       if negb (loading p) && (List.length (filteredAlerts p) =? 0)%nat
          && negb (truthy_string (error p))
       then Some (if String.eqb (filter p) "all" then "All clear!"
                  else ("No " ++ filter p ++ " alerts at the moment")%string)
       else None;
     items := map (fun a => mkItem a (isAlertRead env (id a)))
                (filteredAlerts p) |}.

Definition render (isVisible : bool) (p : Panel) (env : Env) : option View :=
  if negb isVisible then None else Some (view p env).

(** ** Helpers of the listing *)

Definition getSeverityIcon (severity : option string) : string * string :=
  match severity with
  | None => ("Bell", "w-5 h-5 text-gray-500")
  | Some s =>
      let k := toLowerCase s in
      if String.eqb k "critical" then ("AlertTriangle", "w-5 h-5 text-red-600")
      else if String.eqb k "high" then ("AlertCircle", "w-5 h-5 text-red-500")
      else if String.eqb k "medium" then ("Info", "w-5 h-5 text-yellow-500")
      else if String.eqb k "low" then ("CheckCircle", "w-5 h-5 text-green-500")
      else ("Bell", "w-5 h-5 text-gray-500")
  end.

Definition getSeverityColor (severity : option string) : string :=
  match severity with
  | None => "bg-gray-50 text-gray-700 border-gray-200"
  | Some s =>
      let k := toLowerCase s in
      if String.eqb k "critical" then "bg-red-100 text-red-800 border-red-200"
      else if String.eqb k "high" then "bg-red-50 text-red-700 border-red-200"
      else if String.eqb k "medium" then "bg-yellow-50 text-yellow-700 border-yellow-200"
      else if String.eqb k "low" then "bg-green-50 text-green-700 border-green-200"
      else "bg-gray-50 text-gray-700 border-gray-200"
  end.

(** [formatTimeAgo], on the time values of [now] and of the date; the
    date is [None] when it is invalid.  Differences of time values lie far
    below the range where the division by 1000 could round across an
    integer, so [Math.floor] of it is the integer quotient. *)
Definition formatTimeAgo (now : Z) (date : option Z) : string :=
  let diffInSeconds :=
    match date with
    | Some t => Num ((now - t) / 1000)
    | None => NaN
    end in
  if number_lt diffInSeconds 60 then "Just now"
  else if number_lt diffInSeconds 3600
  then (string_of_number (floor_div diffInSeconds 60) ++ " min ago")%string
  else if number_lt diffInSeconds 86400
  then (string_of_number (floor_div diffInSeconds 3600) ++ "h ago")%string
  else (string_of_number (floor_div diffInSeconds 86400) ++ "d ago")%string.

(** [a.severity_level?.toLowerCase() === key] *)
Definition severity_is (key : string) (a : Alert) : bool :=
  match severity_level a with
  | None => false
  | Some s => String.eqb (toLowerCase s) key
  end.

(** The filter tabs: key, label and the count beside the label. *)
Record tab : Type := mkTab {
  tab_key : string;
  tab_label : string;
  tab_count : Z
}.

Definition tabs (alerts : list Alert) : list tab :=
  [ mkTab "all" "All" (Z.of_nat (List.length alerts));
    mkTab "critical" "Critical"
      (Z.of_nat (List.length (List.filter (severity_is "critical") alerts)));
    mkTab "medium" "Medium"
      (Z.of_nat (List.length (List.filter (severity_is "medium") alerts)));
    mkTab "low" "Low"
      (Z.of_nat (List.length (List.filter (severity_is "low") alerts))) ].

(** ** Scenarios *)

(** The events after the last [Refresh] include a rejected fetch. *)
Fixpoint failed_since_refresh (es : list event) (failed : bool) : bool :=
  match es with
  | [] => failed
  | Refresh :: es' => failed_since_refresh es' false
  | Settle Rejected :: es' => failed_since_refresh es' true
  | _ :: es' => failed_since_refresh es' failed
  end.

(** The same alert clicked [n] times in a row. *)
Fixpoint markAsRead_times (n : nat) (alertId : Z) (p : Panel) (env : Env)
    : Panel * Env :=
  match n with
  | O => (p, env)
  | S n' =>
      let '(p', env') := markAsRead alertId p env in
      markAsRead_times n' alertId p' env'
  end.

Definition is_click (e : event) : bool :=
  match e with
  | Click _ => true
  | _ => false
  end.

(** The ids of the alerts that an event delivers are pairwise distinct,
    as primary keys are. *)
Definition distinct_ids (l : list Alert) : Prop := NoDup (map id l).

Definition delivers_distinct_ids (e : event) : Prop :=
  match e with
  | Settle (Resolved (Paginated l)) => distinct_ids l
  | Settle (Resolved (Bare l)) => distinct_ids l
  | _ => True
  end.

(** The displayed unread count agrees with the unread alerts of the
    feed. *)
Definition count_agrees (p : Panel) (env : Env) : Prop :=
  unreadCount p = Z.of_nat (List.length (unreadAlerts env (alerts p))).

(** What a mounted panel maintains: distinct ids, only fetched alerts on
    display, and a count that agrees. *)
Definition consistent (p : Panel) (env : Env) : Prop :=
  distinct_ids (alerts p) /\
  incl (filteredAlerts p) (alerts p) /\
  count_agrees p env.

End AlertsPanel.

(** * The navigation bar *)

Module Navbar.

Definition getWelcomeMessage (currentUser : option profile) (hour : Z) : string :=
  match currentUser with
  | None => "Welcome"
  | Some _ =>
      let name :=
        match string_or (account_field first_name currentUser)
                (string_or (account_field username currentUser) (Some "Farmer")) with
        | Some n => n
        | None => ""
        end in
      let greeting :=
        if (12 <=? hour) && (hour <? 17) then "Good afternoon"
        else if 17 <=? hour then "Good evening"
        else "Good morning" in
      (greeting ++ ", " ++ name)%string
  end.

End Navbar.

(** * The page *)

Module App.

(** The part of the page that concerns the feed.  The right column always
    holds an [AlertsPanel]; the middle column holds a second one while
    [currentView] is ['alerts'].  Each instance has its own state, and
    both read and write the same [localStorage]. *)
Record State : Type := mkState {
  currentView : string;
  userLocation : option AlertsPanel.location;
  env : AlertsPanel.Env;
  rightColumn : AlertsPanel.Panel;
  mainContent : option AlertsPanel.Panel
}.

Inductive slot : Type :=
| RightColumn
| MainContent.

Inductive event : Type :=
| SetCurrentView (view : string)
| SetUserLocation (l : AlertsPanel.location)
| At (s : slot) (e : AlertsPanel.event).

(** The page once the user profile has loaded: the dashboard view, with
    the right column's panel mounted. *)
Definition start (l : option AlertsPanel.location) (env0 : AlertsPanel.Env) : State :=
  let '(p, env1) := AlertsPanel.mount l env0 in
  {| currentView := "dashboard"; userLocation := l; env := env1;
     rightColumn := p; mainContent := None |}.

Definition setCurrentView (view : string) (s : State) : State :=
  if String.eqb view "alerts" then
    match mainContent s with
    | Some _ =>
        {| currentView := view; userLocation := userLocation s; env := env s;
           rightColumn := rightColumn s; mainContent := mainContent s |}
    | None =>
        let '(p, env1) := AlertsPanel.mount (userLocation s) (env s) in
        {| currentView := view; userLocation := userLocation s; env := env1;
           rightColumn := rightColumn s; mainContent := Some p |}
    end
  else
    {| currentView := view; userLocation := userLocation s; env := env s;
       rightColumn := rightColumn s; mainContent := None |}.

(** A new location object re-runs the fetch effect of every mounted
    panel. *)
Definition setUserLocation (l : AlertsPanel.location) (s : State) : State :=
  let '(r, env1) := AlertsPanel.fetchAlerts_request (Some l) (rightColumn s) (env s) in
  match mainContent s with
  | Some m =>
      let '(m', env2) := AlertsPanel.fetchAlerts_request (Some l) m env1 in
      {| currentView := currentView s; userLocation := Some l; env := env2;
         rightColumn := r; mainContent := Some m' |}
  | None =>
      {| currentView := currentView s; userLocation := Some l; env := env1;
         rightColumn := r; mainContent := None |}
  end.

Definition step (e : event) (s : State) : State :=
  match e with
  | SetCurrentView view => setCurrentView view s
  | SetUserLocation l => setUserLocation l s
  | At RightColumn e' =>
      let '(p, env1) := AlertsPanel.step (userLocation s) e' (rightColumn s) (env s) in
      {| currentView := currentView s; userLocation := userLocation s;
         env := env1; rightColumn := p; mainContent := mainContent s |}
  | At MainContent e' =>
      match mainContent s with
      | Some m =>
          let '(p, env1) := AlertsPanel.step (userLocation s) e' m (env s) in
          {| currentView := currentView s; userLocation := userLocation s;
             env := env1; rightColumn := rightColumn s; mainContent := Some p |}
      | None => s
      end
  end.

Definition run (es : list event) (s : State) : State :=
  fold_left (fun s e => step e s) es s.

Definition panel_at (k : slot) (s : State) : option AlertsPanel.Panel :=
  match k with
  | RightColumn => Some (rightColumn s)
  | MainContent => mainContent s
  end.

(** A click anywhere but in the panel at [k]. *)
Definition clicks_elsewhere (k : slot) (e : event) : bool :=
  match e, k with
  | At RightColumn (AlertsPanel.Click _), MainContent => true
  | At MainContent (AlertsPanel.Click _), RightColumn => true
  | _, _ => false
  end.

Definition delivers_distinct_ids (e : event) : Prop :=
  match e with
  | At _ e' => AlertsPanel.delivers_distinct_ids e'
  | _ => True
  end.

Definition consistent_at (k : slot) (s : State) : Prop :=
  forall p, panel_at k s = Some p -> AlertsPanel.consistent p (env s).

End App.

(** * Properties of the welcome card's classifier *)

Section RiskClassifier.
Import WelcomeCard.

Lemma ge_true (q n : Q) : (n <= q)%Q -> ge (Finite q) n = true.
Proof. intros H. simpl. now apply Qle_bool_iff. Qed.

Lemma ge_false (q n : Q) : (q < n)%Q -> ge (Finite q) n = false.
Proof.
  intros H. simpl. destruct (Qle_bool n q) eqn:E; [|reflexivity].
  apply Qle_bool_iff in E. exfalso. exact (Qlt_not_le _ _ H E).
Qed.

Lemma falsy_zero (q : Q) : (q == 0)%Q -> falsy (Finite q) = true.
Proof. intros H. simpl. now apply Qeq_bool_iff. Qed.

Lemma falsy_nonzero (q : Q) : ~ (q == 0)%Q -> falsy (Finite q) = false.
Proof.
  intros H. simpl. destruct (Qeq_bool q 0) eqn:E; [|reflexivity].
  apply Qeq_bool_iff in E. contradiction.
Qed.

Lemma nonzero_above (q n : Q) : (0 < n)%Q -> (n <= q)%Q -> ~ (q == 0)%Q.
Proof.
  intros Hn Hq E. rewrite E in Hq. exact (Qlt_not_le _ _ Hn Hq).
Qed.

(** C2, as the code has it: a finite score is classified against the
    thresholds 8, 6 and 4, a score on a threshold taking the higher level;
    the labels are Very High, High, Moderate and Low.  A score equal to
    zero, a score that is not a number and a missing score (undefined or
    null) are Unknown, not Low.  The colour follows the same
    thresholds. *)
Theorem getRiskLevel_thresholds (q : Q) :
  ((8 <= q)%Q ->
     getRiskLevel (Finite q) = "Very High" /\
     getRiskColor (Finite q) = "text-red-600") /\
  ((6 <= q)%Q -> (q < 8)%Q ->
     getRiskLevel (Finite q) = "High" /\
     getRiskColor (Finite q) = "text-orange-500") /\
  ((4 <= q)%Q -> (q < 6)%Q ->
     getRiskLevel (Finite q) = "Moderate" /\
     getRiskColor (Finite q) = "text-yellow-500") /\
  ((q < 4)%Q -> ~ (q == 0)%Q ->
     getRiskLevel (Finite q) = "Low" /\
     getRiskColor (Finite q) = "text-green-500") /\
  ((q == 0)%Q ->
     getRiskLevel (Finite q) = "Unknown" /\
     getRiskColor (Finite q) = "text-gray-500") /\
  getRiskLevel NotANumber = "Unknown" /\
  getRiskLevel Missing = "Unknown" /\
  getRiskLevel Null = "Unknown".
Proof.
  unfold getRiskLevel, getRiskColor.
  repeat split.
  - rewrite (falsy_nonzero q), (ge_true q 8); auto.
    apply (nonzero_above q 8); auto. reflexivity.
  - rewrite (falsy_nonzero q), (ge_true q 8); auto.
    apply (nonzero_above q 8); auto. reflexivity.
  - rewrite (falsy_nonzero q), (ge_false q 8), (ge_true q 6); auto.
    apply (nonzero_above q 6); auto. reflexivity.
  - rewrite (falsy_nonzero q), (ge_false q 8), (ge_true q 6); auto.
    apply (nonzero_above q 6); auto. reflexivity.
  - rewrite (falsy_nonzero q), (ge_false q 8), (ge_false q 6), (ge_true q 4); auto.
    + apply Qlt_trans with 6%Q; auto. reflexivity.
    + apply (nonzero_above q 4); auto. reflexivity.
  - rewrite (falsy_nonzero q), (ge_false q 8), (ge_false q 6), (ge_true q 4); auto.
    + apply Qlt_trans with 6%Q; auto. reflexivity.
    + apply (nonzero_above q 4); auto. reflexivity.
  - rewrite (falsy_nonzero q), (ge_false q 8), (ge_false q 6), (ge_false q 4); auto.
    + apply Qlt_trans with 4%Q; auto. reflexivity.
    + apply Qlt_trans with 4%Q; auto. reflexivity.
  - rewrite (falsy_nonzero q), (ge_false q 8), (ge_false q 6), (ge_false q 4); auto.
    + apply Qlt_trans with 4%Q; auto. reflexivity.
    + apply Qlt_trans with 4%Q; auto. reflexivity.
  - rewrite (falsy_zero q); auto.
  - rewrite (falsy_zero q); auto.
Qed.

(** The thresholds at work: 8, 6 and 4 take the higher level, 7.9, 5.5,
    2 and -1 fall where their interval says, and 0 is Unknown. *)
Lemma getRiskLevel_thresholds_witness :
  getRiskLevel (Finite 8) = "Very High" /\
  getRiskLevel (Finite 6) = "High" /\
  getRiskLevel (Finite (79 # 10)) = "High" /\
  getRiskLevel (Finite 4) = "Moderate" /\
  getRiskLevel (Finite (11 # 2)) = "Moderate" /\
  getRiskLevel (Finite 2) = "Low" /\
  getRiskLevel (Finite (-1)) = "Low" /\
  getRiskLevel (Finite 0) = "Unknown".
Proof.
  destruct (getRiskLevel_thresholds 8) as (H8 & _).
  destruct (getRiskLevel_thresholds 6) as (_ & H6 & _).
  destruct (getRiskLevel_thresholds (79 # 10)) as (_ & H79 & _).
  destruct (getRiskLevel_thresholds 4) as (_ & _ & H4 & _).
  destruct (getRiskLevel_thresholds (11 # 2)) as (_ & _ & H55 & _).
  destruct (getRiskLevel_thresholds 2) as (_ & _ & _ & H2 & _).
  destruct (getRiskLevel_thresholds (-1)) as (_ & _ & _ & Hm & _).
  destruct (getRiskLevel_thresholds 0) as (_ & _ & _ & _ & H0 & _).
  split; [apply H8; discriminate|].
  split; [apply H6; [discriminate | reflexivity]|].
  split; [apply H79; [discriminate | reflexivity]|].
  split; [apply H4; [discriminate | reflexivity]|].
  split; [apply H55; [discriminate | reflexivity]|].
  split; [apply H2; [reflexivity | discriminate]|].
  split; [apply Hm; [reflexivity | discriminate]|].
  apply H0. reflexivity.
Defined.

(** C2 as the spec words it fails at zero: 0 is below every threshold,
    yet the classifier does not answer Low there. *)
Lemma getRiskLevel_zero_not_low :
  (0 < 4)%Q /\
  WelcomeCard.getRiskLevel (Finite 0) = "Unknown" /\
  WelcomeCard.getRiskLevel (Finite 0) <> "Low" /\
  WelcomeCard.getRiskColor (Finite 0) <> WelcomeCard.getRiskColor (Finite 1).
Proof.
  repeat split; try reflexivity; discriminate.
Qed.

End RiskClassifier.

(** * Properties of the read tracking *)

Section ReadTracking.
Import AlertsPanel.

Lemma includes_app (l m : list Z) (x : Z) :
  includes (l ++ m) x = includes l x || includes m x.
Proof. unfold includes. apply existsb_app. Qed.

Lemma includes_single (x y : Z) : includes [y] x = (x =? y).
Proof. unfold includes. simpl. apply orb_false_r. Qed.

Lemma markAsRead_read (alertId : Z) (p : Panel) (env : Env) :
  isAlertRead env alertId = true -> markAsRead alertId p env = (p, env).
Proof.
  unfold markAsRead, isAlertRead. intros H. now rewrite H.
Qed.

Lemma markAsRead_unread (alertId : Z) (p : Panel) (env : Env) :
  isAlertRead env alertId = false ->
  markAsRead alertId p env =
    (setUnreadCount (fun prev => Z.max 0 (prev - 1)) p,
     mkEnv (Some (storedReadAlerts env ++ [alertId])%list) (requests env)).
Proof.
  unfold markAsRead, isAlertRead. intros H. now rewrite H.
Qed.

Lemma isAlertRead_stored_more (env : Env) (rq : list request) (x y : Z) :
  isAlertRead (mkEnv (Some (storedReadAlerts env ++ [y])%list) rq) x =
  isAlertRead env x || (x =? y).
Proof.
  unfold isAlertRead. cbn [storedReadAlerts readAlerts].
  now rewrite includes_app, includes_single.
Qed.

Lemma markAsRead_marks (alertId : Z) (p : Panel) (env : Env) :
  isAlertRead (snd (markAsRead alertId p env)) alertId = true.
Proof.
  destruct (isAlertRead env alertId) eqn:E.
  - now rewrite markAsRead_read.
  - rewrite markAsRead_unread by assumption. unfold isAlertRead.
    cbn [snd storedReadAlerts readAlerts].
    rewrite includes_app, includes_single, Z.eqb_refl. apply orb_true_r.
Qed.

Lemma markAsRead_keeps_read (alertId other : Z) (p : Panel) (env : Env) :
  isAlertRead env other = true ->
  isAlertRead (snd (markAsRead alertId p env)) other = true.
Proof.
  intros H. destruct (isAlertRead env alertId) eqn:E.
  - now rewrite markAsRead_read.
  - rewrite markAsRead_unread by assumption. unfold isAlertRead in *.
    cbn [snd storedReadAlerts readAlerts].
    rewrite includes_app, H. reflexivity.
Qed.

Lemma markAsRead_times_read (n : nat) (alertId : Z) (p : Panel) (env : Env) :
  isAlertRead env alertId = true ->
  markAsRead_times n alertId p env = (p, env).
Proof.
  intros H. induction n as [|n IH]; simpl; [reflexivity|].
  now rewrite markAsRead_read.
Qed.

(** C4: marking the same alert read [n >= 1] times leaves the component
    state, the stored read list and the unread count exactly as one
    marking does, and the alert is read after any number of repeats. *)
Theorem markAsRead_idempotent (n : nat) (alertId : Z) (p : Panel) (env : Env) :
  (1 <= n)%nat ->
  markAsRead_times n alertId p env = markAsRead alertId p env /\
  readAlerts (snd (markAsRead_times n alertId p env)) =
    readAlerts (snd (markAsRead alertId p env)) /\
  unreadCount (fst (markAsRead_times n alertId p env)) =
    unreadCount (fst (markAsRead alertId p env)) /\
  isAlertRead (snd (markAsRead_times n alertId p env)) alertId = true.
Proof.
  intros Hn.
  assert (E : markAsRead_times n alertId p env = markAsRead alertId p env).
  { destruct n as [|n]; [lia|]. simpl.
    pose proof (markAsRead_marks alertId p env) as Hm.
    destruct (markAsRead alertId p env) as [p1 env1]. simpl in Hm.
    now apply markAsRead_times_read. }
  rewrite E. repeat split. apply markAsRead_marks.
Qed.

(** Three clicks on alert 7, unread in a panel that counts two unread
    alerts, against one click. *)
Lemma markAsRead_idempotent_witness :
  markAsRead_times 3 7 (setUnreadCount (fun _ => 2) initial) (mkEnv (Some [4]) []) =
    (setUnreadCount (fun _ => 1) initial, mkEnv (Some [4; 7]) []) /\
  isAlertRead (snd (markAsRead_times 3 7 (setUnreadCount (fun _ => 2) initial)
                      (mkEnv (Some [4]) []))) 7 = true.
Proof.
  destruct (markAsRead_idempotent 3 7 (setUnreadCount (fun _ => 2) initial)
              (mkEnv (Some [4]) [])) as (H1 & _ & _ & H4); [lia|].
  split; [rewrite H1; reflexivity | exact H4].
Defined.

(** C5, as the code has it: marking an alert read sends nothing to the
    server.  For an id that is not stored yet, the id is appended to the
    [readAlerts] item of [localStorage], behind the ids stored before,
    and the unread count goes down by one, though not below zero; for an
    id that is stored already nothing changes at all.  Either way the
    alerts read afterwards are those read before and this one, the rest
    of the component state is untouched, and the stored list is the only
    record: without the item the alert is unread again. *)
Theorem markAsRead_is_local (alertId : Z) (p : Panel) (env : Env) :
  requests (snd (markAsRead alertId p env)) = requests env /\
  (isAlertRead env alertId = false ->
     readAlerts (snd (markAsRead alertId p env)) =
       Some (storedReadAlerts env ++ [alertId])%list /\
     unreadCount (fst (markAsRead alertId p env)) = Z.max 0 (unreadCount p - 1)) /\
  (isAlertRead env alertId = true -> markAsRead alertId p env = (p, env)) /\
  (forall other,
     isAlertRead (snd (markAsRead alertId p env)) other =
     isAlertRead env other || (other =? alertId)) /\
  isAlertRead (snd (markAsRead alertId p env)) alertId = true /\
  isAlertRead (mkEnv None (requests (snd (markAsRead alertId p env)))) alertId = false /\
  alerts (fst (markAsRead alertId p env)) = alerts p /\
  filteredAlerts (fst (markAsRead alertId p env)) = filteredAlerts p /\
  filter (fst (markAsRead alertId p env)) = filter p /\
  loading (fst (markAsRead alertId p env)) = loading p /\
  error (fst (markAsRead alertId p env)) = error p.
Proof.
  destruct (isAlertRead env alertId) eqn:E.
  - rewrite markAsRead_read by assumption. cbn [fst snd].
    split; [reflexivity|]. split; [discriminate|]. split; [reflexivity|].
    split.
    + intros other. destruct (other =? alertId) eqn:O.
      * apply Z.eqb_eq in O. subst other. now rewrite E.
      * now rewrite orb_false_r.
    + split; [exact E|]. repeat split.
  - rewrite markAsRead_unread by assumption. cbn [fst snd].
    split; [reflexivity|]. split; [intros _; split; reflexivity|].
    split; [discriminate|]. split.
    + intros other. apply isAlertRead_stored_more.
    + split.
      * rewrite isAlertRead_stored_more, Z.eqb_refl. apply orb_true_r.
      * repeat split.
Qed.

(** Alert 7 marked read in a panel that counts two unread alerts, with
    alert 4 stored before; and alert 4 marked again. *)
Lemma markAsRead_is_local_witness :
  readAlerts (snd (markAsRead 7 (setUnreadCount (fun _ => 2) initial)
                     (mkEnv (Some [4]) []))) = Some [4; 7] /\
  unreadCount (fst (markAsRead 7 (setUnreadCount (fun _ => 2) initial)
                      (mkEnv (Some [4]) []))) = 1 /\
  markAsRead 4 (setUnreadCount (fun _ => 2) initial) (mkEnv (Some [4]) []) =
    (setUnreadCount (fun _ => 2) initial, mkEnv (Some [4]) []).
Proof.
  destruct (markAsRead_is_local 7 (setUnreadCount (fun _ => 2) initial)
              (mkEnv (Some [4]) [])) as (_ & H & _).
  destruct (markAsRead_is_local 4 (setUnreadCount (fun _ => 2) initial)
              (mkEnv (Some [4]) [])) as (_ & _ & K & _).
  destruct H as [H1 H2]; [reflexivity|].
  split; [exact H1|]. split; [exact H2|]. apply K. reflexivity.
Defined.

(** C5 as the spec words it fails: after a fresh panel marks alert 7
    read, no request has been sent at all, and the browser's storage holds
    the only trace of it. *)
Lemma markAsRead_sends_nothing :
  ~ (exists r, In r (requests (snd (markAsRead 7 initial (mkEnv None []))))) /\
  readAlerts (snd (markAsRead 7 initial (mkEnv None []))) = Some [7].
Proof.
  split; [|reflexivity]. intros [r H]. exact H.
Qed.

Lemma fetchAlerts_settle_unreadCount (o : outcome) (p : Panel) (env : Env) :
  0 <= unreadCount p -> 0 <= unreadCount (fetchAlerts_settle o p env).
Proof.
  intros H. destruct o as [r|]; simpl; [apply Nat2Z.is_nonneg | exact H].
Qed.

(** C9: no event makes the unread count negative.  A recomputation sets
    it to a list length, a click lowers it by one and stops at zero, and
    everything else leaves it alone. *)
Theorem unreadCount_nonneg (userLocation : option location) (e : event)
    (p : Panel) (env : Env) :
  0 <= unreadCount p ->
  0 <= unreadCount (fst (step userLocation e p env)) /\
  0 <= unreadCount (unread_effect env p) /\
  (forall alertId, 0 <= unreadCount (fst (markAsRead alertId p env))).
Proof.
  intros H.
  assert (M : forall alertId, 0 <= unreadCount (fst (markAsRead alertId p env))).
  { intros alertId. unfold markAsRead.
    destruct (negb (includes (storedReadAlerts env) alertId)); simpl; lia. }
  split; [|split; [apply Nat2Z.is_nonneg | exact M]].
  destruct e as [|o|key|i]; simpl.
  - exact H.
  - now apply fetchAlerts_settle_unreadCount.
  - exact H.
  - destruct (nth_error (filteredAlerts p) i) as [a|]; [apply M | exact H].
Qed.

(** A click in a panel whose count is already zero, on an alert that is
    not yet stored as read: the count stays at zero. *)
Lemma unreadCount_nonneg_witness :
  0 <= unreadCount
         (fst (step None (Click 0)
                 (setFilteredAlerts [mkAlert 7 "Dry spell" (Some "high") (Some 0)] initial)
                 (mkEnv None []))) /\
  unreadCount
    (fst (step None (Click 0)
            (setFilteredAlerts [mkAlert 7 "Dry spell" (Some "high") (Some 0)] initial)
            (mkEnv None []))) = 0.
Proof.
  split; [|reflexivity].
  apply (unreadCount_nonneg None (Click 0)
           (setFilteredAlerts [mkAlert 7 "Dry spell" (Some "high") (Some 0)] initial)
           (mkEnv None [])).
  simpl. lia.
Defined.

Lemma step_readAlerts (userLocation : option location) (e : event)
    (p : Panel) (env : Env) :
  is_click e = false ->
  readAlerts (snd (step userLocation e p env)) = readAlerts env.
Proof.
  destruct e; simpl; intros H; try reflexivity. discriminate.
Qed.

Lemma run_readAlerts (userLocation : option location) (es : list event) :
  forall (p : Panel) (env : Env),
  forallb (fun e => negb (is_click e)) es = true ->
  readAlerts (snd (run userLocation es p env)) = readAlerts env.
Proof.
  induction es as [|e es IH]; intros p env H; simpl in *; [reflexivity|].
  apply andb_prop in H. destruct H as [He Hes].
  apply negb_true_iff in He.
  pose proof (step_readAlerts userLocation e p env He) as Hs.
  destruct (step userLocation e p env) as [p1 env1]. simpl in Hs.
  rewrite IH by assumption. exact Hs.
Qed.

(** C6: fetching leaves the stored read list as it was.  That holds for
    one whole fetch, whatever its outcome, and for any run of events
    without a click (fetches starting and ending, filter changes), so
    every alert is read afterwards exactly when it was read before.  An
    event that does change the stored list is a click. *)
Theorem fetchAlerts_keeps_readAlerts (userLocation : option location)
    (es : list event) (p : Panel) (env : Env) :
  forallb (fun e => negb (is_click e)) es = true ->
  readAlerts (snd (run userLocation es p env)) = readAlerts env /\
  (forall alertId,
     isAlertRead (snd (run userLocation es p env)) alertId = isAlertRead env alertId) /\
  (forall o, readAlerts (snd (fetchAlerts userLocation o p env)) = readAlerts env) /\
  (forall e, readAlerts (snd (step userLocation e p env)) <> readAlerts env ->
             exists i, e = Click i).
Proof.
  intros H. pose proof (run_readAlerts userLocation es p env H) as R.
  split; [exact R|]. split.
  - intros alertId. unfold isAlertRead, storedReadAlerts. now rewrite R.
  - split; [intros o; reflexivity|].
    intros e Hne. destruct e as [|o|key|i]; simpl in Hne;
      try (exfalso; apply Hne; reflexivity).
    now exists i.
Qed.

(** Two polls, one answered and one failed, with alert 4 read before:
    the stored list is still [[4]] and alert 7, though delivered, is not
    read. *)
Lemma fetchAlerts_keeps_readAlerts_witness :
  readAlerts
    (snd (run None
            [Refresh;
             Settle (Resolved (Paginated [mkAlert 7 "Dry spell" (Some "high") (Some 0)]));
             Refresh; Settle Rejected]
            initial (mkEnv (Some [4]) []))) = Some [4] /\
  isAlertRead
    (snd (run None
            [Refresh;
             Settle (Resolved (Paginated [mkAlert 7 "Dry spell" (Some "high") (Some 0)]));
             Refresh; Settle Rejected]
            initial (mkEnv (Some [4]) []))) 7 = false.
Proof.
  destruct (fetchAlerts_keeps_readAlerts None
              [Refresh;
               Settle (Resolved (Paginated [mkAlert 7 "Dry spell" (Some "high") (Some 0)]));
               Refresh; Settle Rejected]
              initial (mkEnv (Some [4]) [])) as (H1 & H2 & _); [reflexivity|].
  split; [exact H1 | rewrite H2; reflexivity].
Defined.

End ReadTracking.

(** * What a failed fetch shows *)

Section FetchFailure.
Import AlertsPanel.

Lemma filterAlerts_nil (key : string) : filterAlerts [] key = [].
Proof.
  unfold filterAlerts, selectAlerts.
  destruct (negb (String.eqb key "all")); reflexivity.
Qed.

(** C7, as the code has it: when the fetch fails the panel shows the
    error banner with its message and withholds the "No alerts found"
    notice; the alerts fetched before stay listed.  The state differs
    from that of an empty feed: there [error] is null, no banner is
    shown, and the notice appears once loading is over. *)
Theorem fetch_failure_shows_error (userLocation : option location)
    (p : Panel) (env : Env) :
  error (fst (fetchAlerts userLocation Rejected p env)) =
    Some "Failed to load alerts. Please try again." /\
  error_banner (view (fst (fetchAlerts userLocation Rejected p env))
                  (snd (fetchAlerts userLocation Rejected p env))) =
    Some "Failed to load alerts. Please try again." /\
  empty_notice (view (fst (fetchAlerts userLocation Rejected p env))
                  (snd (fetchAlerts userLocation Rejected p env))) = None /\
  alerts (fst (fetchAlerts userLocation Rejected p env)) = alerts p /\
  filteredAlerts (fst (fetchAlerts userLocation Rejected p env)) = filteredAlerts p /\
  error (fst (fetchAlerts userLocation (Resolved (Paginated [])) p env)) = None /\
  error_banner (view (fst (fetchAlerts userLocation (Resolved (Paginated [])) p env))
                  (snd (fetchAlerts userLocation (Resolved (Paginated [])) p env))) = None /\
  empty_notice (view (fst (fetchAlerts userLocation (Resolved (Paginated [])) p env))
                  (snd (fetchAlerts userLocation (Resolved (Paginated [])) p env))) =
    Some (if String.eqb (filter p) "all" then "All clear!"
          else ("No " ++ filter p ++ " alerts at the moment")%string).
Proof.
  repeat split.
  - unfold view, fetchAlerts. cbn.
    rewrite andb_false_r. reflexivity.
  - unfold view, fetchAlerts. cbn.
    rewrite filterAlerts_nil. reflexivity.
Qed.

(** C7 as the spec words it fails: the first fetch of a fresh panel is
    rejected, and the panel renders the error banner and no empty-feed
    notice. *)
Lemma fetch_failure_is_presented :
  render true (fst (fetchAlerts None Rejected initial (mkEnv None [])))
              (snd (fetchAlerts None Rejected initial (mkEnv None []))) =
    Some {| badge := None;
            error_banner := Some "Failed to load alerts. Please try again.";
            loading_notice := false;
            empty_notice := None;
            items := [] |}.
Proof. reflexivity. Qed.

End FetchFailure.

(** * Properties of the sort *)

Section SortFacts.
Context {A : Type}.
Variable comparefn : A -> A -> number.

Lemma insert_perm (x : A) (l : list A) :
  Permutation (insert comparefn x l) (x :: l).
Proof.
  induction l as [|y l IH]; simpl; [apply Permutation_refl|].
  destruct (0 <? SortCompare comparefn x y).
  - apply Permutation_trans with (y :: x :: l).
    + now apply perm_skip.
    + apply perm_swap.
  - apply Permutation_refl.
Qed.

Lemma sort_perm (l : list A) : Permutation (sort comparefn l) l.
Proof.
  induction l as [|x l IH]; simpl; [apply perm_nil|].
  apply Permutation_trans with (x :: sort comparefn l).
  - apply insert_perm.
  - now apply perm_skip.
Qed.

Lemma sort_In (l : list A) (x : A) : In x (sort comparefn l) <-> In x l.
Proof.
  split; apply Permutation_in;
    [apply sort_perm | apply Permutation_sym, sort_perm].
Qed.

(** The elements on which the comparator is consistent. *)
Variable ok : A -> Prop.

Hypothesis before_trans :
  forall x y z, ok x -> ok y -> ok z ->
    before comparefn x y -> before comparefn y z -> before comparefn x z.
Hypothesis before_total :
  forall x y, ok x -> ok y -> 0 < SortCompare comparefn x y -> before comparefn y x.

Lemma insert_sorted (x : A) (l : list A) :
  ok x -> Forall ok l ->
  StronglySorted (before comparefn) l -> StronglySorted (before comparefn) (insert comparefn x l).
Proof.
  intros Hx Hl Hs. induction Hs as [|y l Hs IH Hy]; simpl.
  - constructor; constructor.
  - inversion Hl as [|? ? Hoky Hokl]; subst.
    destruct (0 <? SortCompare comparefn x y) eqn:E.
    + apply Z.ltb_lt in E. constructor; [now apply IH|].
      apply (Permutation_Forall (Permutation_sym (insert_perm x l))).
      constructor; [now apply before_total | exact Hy].
    + apply Z.ltb_ge in E. constructor; [now constructor|].
      constructor; [exact E|].
      rewrite Forall_forall in *. intros z Hz.
      apply before_trans with y; auto.
Qed.

Lemma sort_ok (l : list A) : Forall ok l -> Forall ok (sort comparefn l).
Proof.
  apply Permutation_Forall, Permutation_sym, sort_perm.
Qed.

Lemma sort_sorted (l : list A) :
  Forall ok l -> StronglySorted (before comparefn) (sort comparefn l).
Proof.
  induction l as [|x l IH]; intros H; simpl; [constructor|].
  inversion H; subst. apply insert_sorted; auto using sort_ok.
Qed.

(** Stability, for a class [P] of elements that tie with one another. *)
Variable P : A -> bool.
Hypothesis P_ties :
  forall x y, ok x -> ok y -> P x = true -> P y = true -> before comparefn x y.

Lemma insert_stable (x : A) (l : list A) :
  ok x -> Forall ok l ->
  List.filter P (insert comparefn x l) = List.filter P (x :: l).
Proof.
  intros Hx Hl. induction Hl as [|y l Hy Hl IH]; [reflexivity|].
  cbn [insert]. destruct (0 <? SortCompare comparefn x y) eqn:E; [|reflexivity].
  apply Z.ltb_lt in E. cbn [List.filter] in *. rewrite IH.
  destruct (P x) eqn:Px, (P y) eqn:Py; try reflexivity.
  pose proof (P_ties x y Hx Hy Px Py) as B. unfold before in B. lia.
Qed.

Lemma sort_stable (l : list A) :
  Forall ok l -> List.filter P (sort comparefn l) = List.filter P l.
Proof.
  induction l as [|x l IH]; intros H; [reflexivity|].
  inversion H; subst. cbn [sort].
  rewrite insert_stable by auto using sort_ok.
  cbn [List.filter]. now rewrite IH.
Qed.

End SortFacts.

Lemma StronglySorted_nth {A : Type} (R : A -> A -> Prop) (l : list A) :
  StronglySorted R l ->
  forall i j a b, (i < j)%nat ->
  nth_error l i = Some a -> nth_error l j = Some b -> R a b.
Proof.
  induction 1 as [|x l Hs IH Hx]; intros i j a b Hij Hi Hj.
  - destruct i; discriminate.
  - destruct j as [|j]; [lia|]. simpl in Hj.
    destruct i as [|i]; simpl in Hi.
    + injection Hi as <-. rewrite Forall_forall in Hx.
      apply Hx. eapply nth_error_In; eauto.
    + apply (IH i j); auto. lia.
Qed.

(** * Properties of the feed order *)

Section FeedOrder.
Import AlertsPanel.

Lemma SortCompare_comparable (a b : Alert) (ra ta rb tb : Z) :
  sort_key a = Some (ra, ta) -> sort_key b = Some (rb, tb) ->
  SortCompare compareAlerts a b = if ra =? rb then tb - ta else ra - rb.
Proof.
  unfold sort_key, SortCompare, compareAlerts.
  destruct (severityOf a) as [r1|k1]; [|discriminate].
  destruct (created_at a) as [t1|]; [|discriminate].
  destruct (severityOf b) as [r2|k2]; [|discriminate].
  destruct (created_at b) as [t2|]; [|discriminate].
  intros Ha Hb. injection Ha as <- <-. injection Hb as <- <-.
  cbn [strict_neq minus date_minus].
  destruct (r1 =? r2); reflexivity.
Qed.

Lemma before_comparable (a b : Alert) (ra ta rb tb : Z) :
  sort_key a = Some (ra, ta) -> sort_key b = Some (rb, tb) ->
  before compareAlerts a b <-> ra < rb \/ (ra = rb /\ tb <= ta).
Proof.
  intros Ha Hb. unfold before.
  rewrite (SortCompare_comparable a b ra ta rb tb Ha Hb).
  destruct (ra =? rb) eqn:E.
  - apply Z.eqb_eq in E. lia.
  - apply Z.eqb_neq in E. lia.
Qed.

Lemma before_comparable_trans (x y z : Alert) :
  comparable x -> comparable y -> comparable z ->
  before compareAlerts x y -> before compareAlerts y z -> before compareAlerts x z.
Proof.
  intros (rx & tx & Hx) (ry & ty & Hy) (rz & tz & Hz).
  rewrite (before_comparable x y rx tx ry ty Hx Hy).
  rewrite (before_comparable y z ry ty rz tz Hy Hz).
  rewrite (before_comparable x z rx tx rz tz Hx Hz). lia.
Qed.

Lemma before_comparable_total (x y : Alert) :
  comparable x -> comparable y ->
  0 < SortCompare compareAlerts x y -> before compareAlerts y x.
Proof.
  intros (rx & tx & Hx) (ry & ty & Hy).
  rewrite (before_comparable y x ry ty rx tx Hy Hx).
  rewrite (SortCompare_comparable x y rx tx ry ty Hx Hy).
  destruct (rx =? ry) eqn:E.
  - apply Z.eqb_eq in E. lia.
  - apply Z.eqb_neq in E. lia.
Qed.

Lemma has_key_sort_key (r t : Z) (a : Alert) :
  has_key r t a = true <-> sort_key a = Some (r, t).
Proof.
  unfold has_key. destruct (sort_key a) as [[r' t']|].
  - rewrite andb_true_iff, !Z.eqb_eq. split.
    + intros [-> ->]. reflexivity.
    + intros H. injection H as -> ->. auto.
  - split; discriminate.
Qed.

Lemma has_key_ties (r t : Z) (x y : Alert) :
  comparable x -> comparable y ->
  has_key r t x = true -> has_key r t y = true -> before compareAlerts x y.
Proof.
  intros _ _ Hx Hy. apply has_key_sort_key in Hx, Hy.
  rewrite (before_comparable x y r t r t Hx Hy). lia.
Qed.

Lemma selectAlerts_incl (l : list Alert) (key : string) (a : Alert) :
  In a (selectAlerts l key) -> In a l.
Proof.
  unfold selectAlerts. destruct (negb (String.eqb key "all")); [|auto].
  intros H. apply filter_In in H. tauto.
Qed.

Lemma filterAlerts_incl (l : list Alert) (key : string) (a : Alert) :
  In a (filterAlerts l key) -> In a l.
Proof.
  unfold filterAlerts. intros H. apply sort_In in H.
  now apply selectAlerts_incl in H.
Qed.

Lemma selectAlerts_comparable (l : list Alert) (key : string) :
  Forall comparable l -> Forall comparable (selectAlerts l key).
Proof.
  rewrite !Forall_forall. intros H a Ha. apply H.
  now apply selectAlerts_incl in Ha.
Qed.

Lemma filterAlerts_sorted (l : list Alert) (key : string) :
  Forall comparable l ->
  forall i j a b, (i < j)%nat ->
  nth_error (filterAlerts l key) i = Some a ->
  nth_error (filterAlerts l key) j = Some b ->
  before compareAlerts a b.
Proof.
  intros H. apply StronglySorted_nth. unfold filterAlerts.
  apply sort_sorted with (ok := comparable).
  - apply before_comparable_trans.
  - apply before_comparable_total.
  - now apply selectAlerts_comparable.
Qed.

(** Why the statements below ask for valid dates: next to an alert with
    an invalid date the comparator is not transitive, so the order that
    [sort] produces is left to the engine.  Here [a] ties with [b] and
    [b] with [c], yet [a] belongs after [c]. *)
Lemma compareAlerts_invalid_date :
  SortCompare compareAlerts (mkAlert 1 "Heat" (Some "high") (Some 10))
                            (mkAlert 2 "Wind" (Some "high") None) = 0 /\
  SortCompare compareAlerts (mkAlert 2 "Wind" (Some "high") None)
                            (mkAlert 3 "Dust" (Some "high") (Some 20)) = 0 /\
  SortCompare compareAlerts (mkAlert 1 "Heat" (Some "high") (Some 10))
                            (mkAlert 3 "Dust" (Some "high") (Some 20)) = 10.
Proof. repeat split. Qed.

Lemma filterAlerts_sorted_selected (l : list Alert) (key : string) :
  Forall comparable (selectAlerts l key) ->
  forall i j a b, (i < j)%nat ->
  nth_error (filterAlerts l key) i = Some a ->
  nth_error (filterAlerts l key) j = Some b ->
  before compareAlerts a b.
Proof.
  intros H. apply StronglySorted_nth. unfold filterAlerts.
  apply sort_sorted with (ok := comparable).
  - apply before_comparable_trans.
  - apply before_comparable_total.
  - exact H.
Qed.

(** The rank of each severity: critical 0, high 1, medium 2, low 3, in
    any letter case; a severity that is none of them, or missing, has
    rank 4 whenever it evaluates to a rank at all. *)
Lemma severityOf_names (a : Alert) :
  (severity_is "critical" a = true -> severityOf a = Rank 0) /\
  (severity_is "high" a = true -> severityOf a = Rank 1) /\
  (severity_is "medium" a = true -> severityOf a = Rank 2) /\
  (severity_is "low" a = true -> severityOf a = Rank 3) /\
  (recognized a = false -> forall r, severityOf a = Rank r -> r = 4).
Proof.
  unfold severity_is, recognized, severityOf, severityOrder.
  destruct (severity_level a) as [s|].
  - repeat split; try (intros H; apply String.eqb_eq in H; rewrite H; reflexivity).
    cbv zeta.
    destruct (String.eqb (toLowerCase s) "critical"); [discriminate|].
    destruct (String.eqb (toLowerCase s) "high"); [discriminate|].
    destruct (String.eqb (toLowerCase s) "medium"); [discriminate|].
    destruct (String.eqb (toLowerCase s) "low"); [discriminate|].
    intros _ r.
    destruct (String.eqb (toLowerCase s) "constructor"); [discriminate|].
    destruct (String.eqb (toLowerCase s) "__proto__"); [discriminate|].
    intros H. now injection H.
  - repeat split; try discriminate. intros _ r H. now injection H.
Qed.

(** C1, as the code has it.  The severities are ranked critical 0,
    high 1, medium 2, low 3 and anything else 4.  When every alert of the
    returned feed (the alerts of the chosen tab) has a severity that
    evaluates to a rank and a valid date, the feed is those alerts
    rearranged so that, of any two listed alerts, the one listed first
    has the smaller rank (the higher severity) or, at equal rank, a
    creation time that is not earlier.  Alerts that tie on both keep the
    order in which they were fetched: the comparator answers zero for
    them and the id plays no part. *)
Theorem feed_order (l : list Alert) (key : string) :
  Forall comparable (selectAlerts l key) ->
  Permutation (filterAlerts l key) (selectAlerts l key) /\
  (forall i j a b ra ta rb tb, (i < j)%nat ->
     nth_error (filterAlerts l key) i = Some a ->
     nth_error (filterAlerts l key) j = Some b ->
     sort_key a = Some (ra, ta) -> sort_key b = Some (rb, tb) ->
     ra < rb \/ (ra = rb /\ tb <= ta)) /\
  (forall r t,
     List.filter (has_key r t) (filterAlerts l key) =
     List.filter (has_key r t) (selectAlerts l key)) /\
  (forall a b, sort_key a = sort_key b -> comparable a ->
     compareAlerts a b = Num 0) /\
  (forall a,
     (severity_is "critical" a = true -> severityOf a = Rank 0) /\
     (severity_is "high" a = true -> severityOf a = Rank 1) /\
     (severity_is "medium" a = true -> severityOf a = Rank 2) /\
     (severity_is "low" a = true -> severityOf a = Rank 3) /\
     (recognized a = false -> forall r, severityOf a = Rank r -> r = 4)).
Proof.
  intros H. split; [apply sort_perm|]. split; [|split; [|split]].
  - intros i j a b ra ta rb tb Hij Hi Hj Ha Hb.
    apply (before_comparable a b ra ta rb tb Ha Hb).
    now apply (filterAlerts_sorted_selected l key H i j).
  - intros r t. unfold filterAlerts.
    apply sort_stable with (ok := comparable).
    + apply has_key_ties.
    + exact H.
  - intros a b E (r & t & Ha). rewrite Ha in E. symmetry in E.
    unfold sort_key, compareAlerts in *.
    destruct (severityOf a) as [r1|]; [|discriminate].
    destruct (created_at a) as [t1|]; [|discriminate].
    destruct (severityOf b) as [r2|]; [|discriminate].
    destruct (created_at b) as [t2|]; [|discriminate].
    injection Ha as -> ->. injection E as -> ->.
    cbn. rewrite Z.eqb_refl. cbn. f_equal. lia.
  - apply severityOf_names.
Qed.

(** The Critical tab of a feed that also holds a low alert with an
    invalid date: the tab's two alerts are comparable, the newer one
    comes first, and both have rank 0. *)
Lemma feed_order_witness :
  Permutation
    (filterAlerts
       [mkAlert 3 "Rain" (Some "low") None;
        mkAlert 8 "Heat" (Some "Critical") (Some 20);
        mkAlert 1 "Drought" (Some "CRITICAL") (Some 30)] "critical")
    [mkAlert 8 "Heat" (Some "Critical") (Some 20);
     mkAlert 1 "Drought" (Some "CRITICAL") (Some 30)] /\
  (0 < 0 \/ (0 = 0 /\ 20 <= 30)) /\
  severityOf (mkAlert 1 "Drought" (Some "CRITICAL") (Some 30)) = Rank 0.
Proof.
  destruct (feed_order
              [mkAlert 3 "Rain" (Some "low") None;
               mkAlert 8 "Heat" (Some "Critical") (Some 20);
               mkAlert 1 "Drought" (Some "CRITICAL") (Some 30)] "critical")
    as (H1 & H2 & _ & _ & H5).
  - cbn. repeat (apply Forall_cons || apply Forall_nil);
      eexists; eexists; reflexivity.
  - split; [exact H1|]. split.
    + apply (H2 0%nat 1%nat
               (mkAlert 1 "Drought" (Some "CRITICAL") (Some 30))
               (mkAlert 8 "Heat" (Some "Critical") (Some 20)) 0 30 0 20);
        [lia | reflexivity | reflexivity | reflexivity | reflexivity].
    + apply (H5 (mkAlert 1 "Drought" (Some "CRITICAL") (Some 30))). reflexivity.
Defined.

(** C1 as the spec words it fails: two distinct alerts of one severity,
    created at the same instant, are left unordered by the comparator,
    and the feed lists them in whichever order they were fetched, not by
    id. *)
Lemma feed_order_ignores_id :
  id (mkAlert 1 "Heat" (Some "high") (Some 20)) <>
    id (mkAlert 2 "Wind" (Some "high") (Some 20)) /\
  compareAlerts (mkAlert 1 "Heat" (Some "high") (Some 20))
                (mkAlert 2 "Wind" (Some "high") (Some 20)) = Num 0 /\
  compareAlerts (mkAlert 2 "Wind" (Some "high") (Some 20))
                (mkAlert 1 "Heat" (Some "high") (Some 20)) = Num 0 /\
  filterAlerts [mkAlert 1 "Heat" (Some "high") (Some 20);
                mkAlert 2 "Wind" (Some "high") (Some 20)] "all" =
    [mkAlert 1 "Heat" (Some "high") (Some 20);
     mkAlert 2 "Wind" (Some "high") (Some 20)] /\
  filterAlerts [mkAlert 2 "Wind" (Some "high") (Some 20);
                mkAlert 1 "Heat" (Some "high") (Some 20)] "all" =
    [mkAlert 2 "Wind" (Some "high") (Some 20);
     mkAlert 1 "Heat" (Some "high") (Some 20)].
Proof.
  split; [discriminate|]. repeat split.
Qed.

End FeedOrder.

(** * Alerts of unrecognized severity *)

Section UnrecognizedSeverity.
Import AlertsPanel.

Lemma severityOf_recognized (a : Alert) :
  recognized a = true -> exists r, severityOf a = Rank r /\ 0 <= r <= 3.
Proof.
  unfold recognized, severityOf, severityOrder.
  destruct (severity_level a) as [s|]; [|discriminate].
  cbv zeta.
  destruct (String.eqb (toLowerCase s) "critical"); [intros _; exists 0; split; [reflexivity|lia]|].
  destruct (String.eqb (toLowerCase s) "high"); [intros _; exists 1; split; [reflexivity|lia]|].
  destruct (String.eqb (toLowerCase s) "medium"); [intros _; exists 2; split; [reflexivity|lia]|].
  destruct (String.eqb (toLowerCase s) "low"); [intros _; exists 3; split; [reflexivity|lia]|].
  discriminate.
Qed.

Lemma severityOf_unrecognized (a : Alert) (r : Z) :
  recognized a = false -> severityOf a = Rank r -> r = 4.
Proof.
  unfold recognized, severityOf, severityOrder.
  destruct (severity_level a) as [s|]; [|intros _ H; now injection H].
  cbv zeta.
  destruct (String.eqb (toLowerCase s) "critical"); [discriminate|].
  destruct (String.eqb (toLowerCase s) "high"); [discriminate|].
  destruct (String.eqb (toLowerCase s) "medium"); [discriminate|].
  destruct (String.eqb (toLowerCase s) "low"); [discriminate|].
  intros _.
  destruct (String.eqb (toLowerCase s) "constructor"); [discriminate|].
  destruct (String.eqb (toLowerCase s) "__proto__"); [discriminate|].
  intros H. now injection H.
Qed.

(** Where the severity does evaluate to a rank, the claim holds: an
    unrecognized alert has rank 4 and is never listed before a
    recognized one. *)
Lemma unrecognized_listed_last (l : list Alert) (key : string) :
  Forall comparable l ->
  forall i j a b, (i < j)%nat ->
  nth_error (filterAlerts l key) i = Some a ->
  nth_error (filterAlerts l key) j = Some b ->
  recognized b = true -> recognized a = true.
Proof.
  intros H i j a b Hij Hi Hj Rb.
  pose proof (filterAlerts_sorted l key H i j a b Hij Hi Hj) as B.
  assert (Ca : comparable a).
  { rewrite Forall_forall in H. apply H.
    apply (filterAlerts_incl l key). eapply nth_error_In; eauto. }
  assert (Cb : comparable b).
  { rewrite Forall_forall in H. apply H.
    apply (filterAlerts_incl l key). eapply nth_error_In; eauto. }
  destruct Ca as (ra & ta & Ka). destruct Cb as (rb & tb & Kb).
  apply (before_comparable a b ra ta rb tb Ka Kb) in B.
  destruct (severityOf_recognized b Rb) as (r & Sb & Hr).
  destruct (recognized a) eqn:Ra; [reflexivity|exfalso].
  unfold sort_key in Ka, Kb. rewrite Sb in Kb.
  destruct (created_at b); [|discriminate]. injection Kb as -> ->.
  destruct (severityOf a) as [r'|] eqn:Sa; [|discriminate].
  destruct (created_at a); [|discriminate]. injection Ka as -> ->.
  pose proof (severityOf_unrecognized a ra Ra Sa). lia.
Qed.

(** C10 at the input where the code departs from it: the severity
    ["constructor"] is none of the four, yet the table lookup finds the
    inherited property, so the alert gets no rank 4; compared with a
    critical alert the comparator answers [NaN] both ways, and the feed
    lists the alert before the critical one. *)
Theorem unrecognized_severity_inherited_key :
  recognized (mkAlert 1 "Notice" (Some "constructor") (Some 0)) = false /\
  severityOf (mkAlert 1 "Notice" (Some "constructor") (Some 0)) =
    Inherited "constructor" /\
  severityOf (mkAlert 1 "Notice" (Some "constructor") (Some 0)) <> Rank 4 /\
  compareAlerts (mkAlert 1 "Notice" (Some "constructor") (Some 0))
                (mkAlert 2 "Drought" (Some "critical") (Some 0)) = NaN /\
  compareAlerts (mkAlert 2 "Drought" (Some "critical") (Some 0))
                (mkAlert 1 "Notice" (Some "constructor") (Some 0)) = NaN /\
  filterAlerts [mkAlert 1 "Notice" (Some "constructor") (Some 0);
                mkAlert 2 "Drought" (Some "critical") (Some 0)] "all" =
    [mkAlert 1 "Notice" (Some "constructor") (Some 0);
     mkAlert 2 "Drought" (Some "critical") (Some 0)].
Proof.
  repeat split. discriminate.
Qed.

End UnrecognizedSeverity.

(** * The unread count *)

Section UnreadCount.
Import AlertsPanel.

Lemma unreadAlerts_readAlerts (env env' : Env) (l : list Alert) :
  readAlerts env' = readAlerts env -> unreadAlerts env' l = unreadAlerts env l.
Proof.
  intros H. unfold unreadAlerts, isAlertRead, storedReadAlerts. now rewrite H.
Qed.

Lemma consistent_readAlerts (p : Panel) (env env' : Env) :
  readAlerts env' = readAlerts env -> consistent p env -> consistent p env'.
Proof.
  intros H (H1 & H2 & H3). repeat split; auto.
  unfold count_agrees. now rewrite (unreadAlerts_readAlerts env env').
Qed.

Lemma isAlertRead_marked (env : Env) (rq : list request) (x y : Z) :
  isAlertRead (mkEnv (Some (storedReadAlerts env ++ [y])%list) rq) x =
  isAlertRead env x || (x =? y).
Proof.
  unfold isAlertRead. cbn [storedReadAlerts readAlerts].
  now rewrite includes_app, includes_single.
Qed.

Lemma unreadAlerts_marked_absent (env : Env) (rq : list request) (y : Z)
    (l : list Alert) :
  ~ In y (map id l) ->
  unreadAlerts (mkEnv (Some (storedReadAlerts env ++ [y])%list) rq) l =
  unreadAlerts env l.
Proof.
  induction l as [|x l IH]; intros H; [reflexivity|].
  unfold unreadAlerts in *. cbn [List.filter].
  rewrite isAlertRead_marked.
  assert (E : (id x =? y) = false).
  { apply Z.eqb_neq. intros E. apply H. left. exact E. }
  rewrite E, orb_false_r, IH; [reflexivity|].
  intros I. apply H. right. exact I.
Qed.

Lemma unreadAlerts_marked_present (env : Env) (rq : list request) (a : Alert)
    (l : list Alert) :
  distinct_ids l -> In a l -> isAlertRead env (id a) = false ->
  List.length (unreadAlerts env l) =
  S (List.length
       (unreadAlerts (mkEnv (Some (storedReadAlerts env ++ [id a])%list) rq) l)).
Proof.
  unfold distinct_ids.
  induction l as [|x l IH]; intros D I U; [contradiction|].
  cbn [map] in D. inversion D as [|? ? Hx Hl]; subst.
  unfold unreadAlerts in *. cbn [List.filter]. rewrite isAlertRead_marked.
  destruct I as [->|I].
  - rewrite U, Z.eqb_refl. cbn [orb negb List.length]. f_equal.
    fold (unreadAlerts (mkEnv (Some (storedReadAlerts env ++ [id a])%list) rq) l).
    now rewrite unreadAlerts_marked_absent.
  - assert (E : (id x =? id a) = false).
    { apply Z.eqb_neq. intros E. apply Hx. rewrite E. now apply in_map. }
    rewrite E, orb_false_r.
    destruct (negb (isAlertRead env (id x))); cbn [List.length];
      rewrite (IH Hl I U); reflexivity.
Qed.

Lemma markAsRead_consistent (a : Alert) (p : Panel) (env : Env) :
  In a (alerts p) -> consistent p env ->
  consistent (fst (markAsRead (id a) p env)) (snd (markAsRead (id a) p env)).
Proof.
  intros I (D & F & C). destruct (isAlertRead env (id a)) eqn:U.
  - rewrite markAsRead_read by assumption. repeat split; assumption.
  - rewrite markAsRead_unread by assumption. cbn [fst snd].
    repeat split; try assumption.
    unfold count_agrees in *. cbn [unreadCount setUnreadCount alerts].
    rewrite C.
    rewrite (unreadAlerts_marked_present env (requests env) a (alerts p) D I U).
    lia.
Qed.

Lemma fetchAlerts_settle_consistent (o : outcome) (p : Panel) (env : Env) :
  delivers_distinct_ids (Settle o) -> consistent p env ->
  consistent (fetchAlerts_settle o p env) env.
Proof.
  intros D C. destruct o as [r|]; [|exact C].
  assert (D' : distinct_ids (match r with Paginated l => l | Bare l => l end)).
  { destruct r; exact D. }
  cbn. repeat split.
  - exact D'.
  - intros a. apply filterAlerts_incl.
Qed.

Lemma step_consistent (userLocation : option location) (e : event)
    (p : Panel) (env : Env) :
  delivers_distinct_ids e -> consistent p env ->
  consistent (fst (step userLocation e p env)) (snd (step userLocation e p env)).
Proof.
  intros D C. destruct e as [|o|key|i]; cbn [step fst snd].
  - apply (consistent_readAlerts _ env); [reflexivity|].
    destruct C as (C1 & C2 & C3). repeat split; assumption.
  - now apply fetchAlerts_settle_consistent.
  - destruct C as (C1 & C2 & C3). repeat split; try assumption.
    intros a. apply filterAlerts_incl.
  - destruct (nth_error (filteredAlerts p) i) as [a|] eqn:E; [|exact C].
    apply markAsRead_consistent; [|exact C].
    destruct C as (_ & F & _). apply F. eapply nth_error_In; eauto.
Qed.

Lemma mount_consistent (userLocation : option location) (env : Env) :
  consistent (fst (mount userLocation env)) (snd (mount userLocation env)) /\
  readAlerts (snd (mount userLocation env)) = readAlerts env.
Proof.
  split; [|reflexivity]. repeat split.
  - constructor.
  - intros a H. exact H.
Qed.

Lemma fetchAlerts_request_consistent (userLocation : option location)
    (p : Panel) (env : Env) :
  consistent p env ->
  consistent (fst (fetchAlerts_request userLocation p env)) env.
Proof.
  intros (C1 & C2 & C3). repeat split; assumption.
Qed.

End UnreadCount.

(** * The unread count on the page *)

Section PageUnreadCount.
Import AlertsPanel.

Lemma setCurrentView_consistent_at (k : App.slot) (view : string) (s : App.State) :
  App.consistent_at k s -> App.consistent_at k (App.setCurrentView view s).
Proof.
  unfold App.consistent_at, App.setCurrentView. intros C p.
  destruct (String.eqb view "alerts").
  - destruct (App.mainContent s) as [m|] eqn:M.
    + destruct k; cbn; intros Hp; apply C; cbn; congruence.
    + destruct k; cbn; intros Hp.
      * injection Hp as <-.
        apply (consistent_readAlerts _ (App.env s)); [reflexivity|].
        apply C. reflexivity.
      * injection Hp as <-.
        apply (mount_consistent (App.userLocation s) (App.env s)).
  - destruct k; cbn; intros Hp; [|discriminate].
    apply C. exact Hp.
Qed.

Lemma setUserLocation_consistent_at (k : App.slot) (l : location) (s : App.State) :
  App.consistent_at k s -> App.consistent_at k (App.setUserLocation l s).
Proof.
  unfold App.consistent_at, App.setUserLocation. intros C p.
  cbn. destruct (App.mainContent s) as [m|] eqn:M.
  - destruct k; cbn; intros Hp; injection Hp as <-.
    + apply (consistent_readAlerts _ (App.env s)); [reflexivity|].
      apply (fetchAlerts_request_consistent (Some l) (App.rightColumn s)).
      apply C. reflexivity.
    + apply (consistent_readAlerts _ (App.env s)); [reflexivity|].
      apply (fetchAlerts_request_consistent (Some l) m).
      apply C. cbn. exact M.
  - destruct k; cbn; intros Hp; [|discriminate]. injection Hp as <-.
    apply (consistent_readAlerts _ (App.env s)); [reflexivity|].
    apply (fetchAlerts_request_consistent (Some l) (App.rightColumn s)).
    apply C. reflexivity.
Qed.

Lemma step_consistent_at (k : App.slot) (e : App.event) (s : App.State) :
  App.delivers_distinct_ids e -> App.clicks_elsewhere k e = false ->
  App.consistent_at k s -> App.consistent_at k (App.step e s).
Proof.
  intros D N C. destruct e as [view|l|k' e']; cbn [App.step].
  - now apply setCurrentView_consistent_at.
  - now apply setUserLocation_consistent_at.
  - cbn in D. destruct k'.
    + pose proof (step_consistent (App.userLocation s) e' (App.rightColumn s)
                    (App.env s) D) as S.
      pose proof (step_readAlerts (App.userLocation s) e' (App.rightColumn s)
                    (App.env s)) as R.
      destruct (step (App.userLocation s) e' (App.rightColumn s) (App.env s))
        as [p1 env1]. cbn [fst snd] in S, R.
      intros p. destruct k; cbn; intros Hp.
      * injection Hp as <-. apply S. apply C. reflexivity.
      * apply (consistent_readAlerts _ (App.env s)).
        -- apply R. destruct e'; try reflexivity. discriminate.
        -- apply C. exact Hp.
    + destruct (App.mainContent s) as [m|] eqn:M; [|exact C].
      pose proof (step_consistent (App.userLocation s) e' m (App.env s) D) as S.
      pose proof (step_readAlerts (App.userLocation s) e' m (App.env s)) as R.
      destruct (step (App.userLocation s) e' m (App.env s)) as [p1 env1].
      cbn [fst snd] in S, R.
      intros p. destruct k; cbn; intros Hp.
      * injection Hp as <-. apply (consistent_readAlerts _ (App.env s)).
        -- apply R. destruct e'; try reflexivity. discriminate.
        -- apply C. reflexivity.
      * injection Hp as <-. apply S. apply C. cbn. exact M.
Qed.

Lemma start_consistent_at (k : App.slot) (l : option location) (env0 : Env) :
  App.consistent_at k (App.start l env0).
Proof.
  intros p. destruct k; cbn; intros Hp; [|discriminate]. injection Hp as <-.
  apply (mount_consistent l env0).
Qed.

Lemma run_consistent_at (k : App.slot) (es : list App.event) :
  forall s : App.State,
  Forall App.delivers_distinct_ids es ->
  forallb (fun e => negb (App.clicks_elsewhere k e)) es = true ->
  App.consistent_at k s -> App.consistent_at k (App.run es s).
Proof.
  unfold App.run.
  induction es as [|e es IH]; intros s D N C; cbn [fold_left]; [exact C|].
  inversion D; subst. cbn [forallb] in N. apply andb_prop in N.
  destruct N as [N1 N2]. apply negb_true_iff in N1.
  apply IH; auto using step_consistent_at.
Qed.

(** C3, as the code has it: on the page, where up to two panels share
    one [localStorage], the count that a panel shows equals the number
    of its fetched alerts that are not stored as read, after any
    interleaving of fetches, filter changes, view changes and clicks in
    which alerts are marked read through that panel only; every fetch
    delivers alerts with distinct ids. *)
Theorem unreadCount_agrees (k : App.slot) (l : option location) (env0 : Env)
    (es : list App.event) (p : Panel) :
  Forall App.delivers_distinct_ids es ->
  forallb (fun e => negb (App.clicks_elsewhere k e)) es = true ->
  App.panel_at k (App.run es (App.start l env0)) = Some p ->
  unreadCount p =
    Z.of_nat (List.length
                (List.filter
                   (fun a => negb (isAlertRead (App.env (App.run es (App.start l env0))) (id a)))
                   (alerts p))).
Proof.
  intros D N Hp.
  apply (run_consistent_at k es (App.start l env0) D N
           (start_consistent_at k l env0) p Hp).
Qed.

(** Alert 4 was read earlier.  The right column fetches alerts 4, 7 and
    9, alert 7 is clicked twice, the feed is fetched again, and the view
    changes to the alerts view: the right column counts one unread
    alert. *)
Lemma unreadCount_agrees_witness :
  exists p,
    App.panel_at App.RightColumn
      (App.run
         [App.At App.RightColumn
            (Settle (Resolved (Paginated
               [mkAlert 4 "Rain" (Some "low") (Some 5);
                mkAlert 7 "Heat" (Some "high") (Some 20);
                mkAlert 9 "Drought" (Some "critical") (Some 10)])));
          App.At App.RightColumn (Click 1);
          App.At App.RightColumn (Click 1);
          App.At App.RightColumn Refresh;
          App.SetCurrentView "alerts"]
         (App.start None (mkEnv (Some [4]) []))) = Some p /\
    unreadCount p = 1.
Proof.
  eexists. split; [reflexivity|].
  rewrite (unreadCount_agrees App.RightColumn None (mkEnv (Some [4]) [])
             [App.At App.RightColumn
                (Settle (Resolved (Paginated
                   [mkAlert 4 "Rain" (Some "low") (Some 5);
                    mkAlert 7 "Heat" (Some "high") (Some 20);
                    mkAlert 9 "Drought" (Some "critical") (Some 10)])));
              App.At App.RightColumn (Click 1);
              App.At App.RightColumn (Click 1);
              App.At App.RightColumn Refresh;
              App.SetCurrentView "alerts"]).
  - reflexivity.
  - repeat (apply Forall_cons || apply Forall_nil); try exact I.
    unfold App.delivers_distinct_ids, delivers_distinct_ids, distinct_ids.
    cbn [map id].
    repeat (apply NoDup_cons || apply NoDup_nil); cbn; intuition discriminate.
  - reflexivity.
  - reflexivity.
Defined.

(** C3 as the spec words it fails: both panels are mounted and have
    fetched alert 7; it is marked read through the middle panel.  The
    right column still shows one unread alert although no alert of its
    feed is unread. *)
Lemma unreadCount_stale_in_other_panel :
  unreadCount
    (App.rightColumn
       (App.run
          [App.At App.RightColumn
             (Settle (Resolved (Paginated [mkAlert 7 "Heat" (Some "high") (Some 20)])));
           App.SetCurrentView "alerts";
           App.At App.MainContent
             (Settle (Resolved (Paginated [mkAlert 7 "Heat" (Some "high") (Some 20)])));
           App.At App.MainContent (Click 0)]
          (App.start None (mkEnv None [])))) = 1 /\
  unreadAlerts
    (App.env
       (App.run
          [App.At App.RightColumn
             (Settle (Resolved (Paginated [mkAlert 7 "Heat" (Some "high") (Some 20)])));
           App.SetCurrentView "alerts";
           App.At App.MainContent
             (Settle (Resolved (Paginated [mkAlert 7 "Heat" (Some "high") (Some 20)])));
           App.At App.MainContent (Click 0)]
          (App.start None (mkEnv None []))))
    (alerts
       (App.rightColumn
          (App.run
             [App.At App.RightColumn
                (Settle (Resolved (Paginated [mkAlert 7 "Heat" (Some "high") (Some 20)])));
              App.SetCurrentView "alerts";
              App.At App.MainContent
                (Settle (Resolved (Paginated [mkAlert 7 "Heat" (Some "high") (Some 20)])));
              App.At App.MainContent (Click 0)]
             (App.start None (mkEnv None []))))) = [].
Proof.
  split; reflexivity.
Qed.

End PageUnreadCount.

(** * Greetings and tips of the welcome card *)

Section Greetings.
Import WelcomeCard.

Lemma truthy_string_nonempty (s : string) :
  truthy_string (Some s) = true -> s <> "".
Proof.
  simpl. intros H E. subst s. discriminate.
Qed.

Lemma string_or_default (a : option string) (d : string) :
  d <> "" ->
  exists n, string_or a (Some d) = Some n /\ n <> "" /\
            (truthy_string a = true -> a = Some n).
Proof.
  intros Hd. unfold string_or. destruct (truthy_string a) eqn:T.
  - destruct a as [n|]; [|discriminate]. exists n.
    split; [reflexivity|]. split; [now apply truthy_string_nonempty|auto].
  - exists d. split; [reflexivity|]. split; [exact Hd|discriminate].
Qed.

Lemma append_nonempty (a b : string) : a <> "" -> (a ++ b)%string <> "".
Proof.
  destruct a as [|c a]; [congruence|]. simpl. discriminate.
Qed.

Lemma append_empty_r (a : string) : (a ++ "")%string = a.
Proof.
  induction a as [|c a IH]; simpl; [reflexivity|now rewrite IH].
Qed.

Lemma greeting_cases (hour : Z) :
  (if (12 <=? hour) && (hour <? 17) then "Good afternoon"
   else if 17 <=? hour then "Good evening" else "Good morning") =
  getGreeting hour.
Proof.
  unfold getGreeting.
  destruct (hour <? 12) eqn:H12, (12 <=? hour) eqn:G12,
           (hour <? 17) eqn:H17, (17 <=? hour) eqn:G17;
    try reflexivity; exfalso;
    repeat match goal with
    | H : (_ <? _) = true |- _ => apply Z.ltb_lt in H
    | H : (_ <? _) = false |- _ => apply Z.ltb_ge in H
    | H : (_ <=? _) = true |- _ => apply Z.leb_le in H
    | H : (_ <=? _) = false |- _ => apply Z.leb_gt in H
    end; lia.
Qed.

Lemma welcome_message_name (u : profile) (hour : Z) :
  exists name rest,
    name <> "" /\
    getUserName (Some u) = (name ++ rest)%string /\
    Navbar.getWelcomeMessage (Some u) hour =
      (getGreeting hour ++ ", " ++ name)%string.
Proof.
  unfold Navbar.getWelcomeMessage, getUserName.
  rewrite greeting_cases.
  destruct (string_or_default (account_field username (Some u)) "Farmer")
    as (n & E & Hn & _); [discriminate|].
  rewrite E. unfold string_or at 1.
  destruct (truthy_string (account_field first_name (Some u))) eqn:T.
  - destruct (account_field first_name (Some u)) as [f|]; [|discriminate].
    exists f. eexists. split; [now apply truthy_string_nonempty|].
    split; reflexivity.
  - exists n, "". split; [exact Hn|]. split; [|reflexivity].
    now rewrite append_empty_r.
Qed.

(** X16.  The navigation bar and the welcome card greet alike: for every hour
    the message of the bar is the card's greeting, a comma and a name
    that is not empty. *)
Theorem greetings_agree (u : profile) (hour : Z) :
  exists name,
    Navbar.getWelcomeMessage (Some u) hour =
      (getGreeting hour ++ ", " ++ name)%string /\
    name <> "".
Proof.
  destruct (welcome_message_name u hour) as (name & rest & H1 & _ & H3).
  exists name. split; assumption.
Qed.

(** X17.  The name on the card is never empty, whatever the profile lacks: it
    is "Farmer" when neither a first name nor a user name is there, and
    it starts with the name that the navigation bar shows (the card adds
    the last name). *)
Theorem getUserName_nonempty (user : option profile) :
  getUserName user <> "" /\
  (truthy_string (account_field first_name user) = false ->
   truthy_string (account_field username user) = false ->
   getUserName user = "Farmer") /\
  (forall hour, user <> None ->
     exists name rest,
       getUserName user = (name ++ rest)%string /\
       Navbar.getWelcomeMessage user hour =
         (getGreeting hour ++ ", " ++ name)%string).
Proof.
  split; [|split].
  - unfold getUserName.
    destruct (truthy_string (account_field first_name user)) eqn:T.
    + destruct (account_field first_name user) as [f|]; [|discriminate].
      apply append_nonempty. now apply truthy_string_nonempty.
    + destruct (string_or_default (account_field username user) "Farmer")
        as (n & E & Hn & _); [discriminate|].
      rewrite E. exact Hn.
  - intros T1 T2. unfold getUserName, string_or. now rewrite T1, T2.
  - intros hour U. destruct user as [u|]; [|congruence].
    destruct (welcome_message_name u hour) as (name & rest & _ & H2 & H3).
    exists name, rest. split; assumption.
Qed.

(** A profile with a first and a last name but no user name, and one
    with nothing at all. *)
Lemma getUserName_nonempty_witness :
  getUserName (Some (mkProfile (Some (mkAccount (Some "Amina") (Some "Otieno") None)))) =
    "Amina Otieno" /\
  getUserName (Some (mkProfile None)) = "Farmer" /\
  exists name rest,
    getUserName (Some (mkProfile (Some (mkAccount (Some "Amina") (Some "Otieno") None)))) =
      (name ++ rest)%string /\
    Navbar.getWelcomeMessage
      (Some (mkProfile (Some (mkAccount (Some "Amina") (Some "Otieno") None)))) 9 =
      (getGreeting 9 ++ ", " ++ name)%string.
Proof.
  destruct (getUserName_nonempty (Some (mkProfile None))) as (_ & F & _).
  destruct (getUserName_nonempty
              (Some (mkProfile (Some (mkAccount (Some "Amina") (Some "Otieno") None)))))
    as (_ & _ & N).
  split; [reflexivity|]. split.
  - apply F; reflexivity.
  - apply (N 9). discriminate.
Defined.

End Greetings.

Section SmartTips.
Import WelcomeCard.

Lemma gt_spec (q n : Q) : gt (Finite q) n = true <-> (n < q)%Q.
Proof.
  simpl. rewrite negb_true_iff. split.
  - intros H. apply Qnot_le_lt. intros L. apply Qle_bool_iff in L. congruence.
  - intros H. destruct (Qle_bool q n) eqn:E; [|reflexivity].
    apply Qle_bool_iff in E. exfalso. exact (Qlt_not_le _ _ H E).
Qed.

Lemma lt_spec (q n : Q) : lt (Finite q) n = true <-> (q < n)%Q.
Proof.
  simpl. rewrite negb_true_iff. split.
  - intros H. apply Qnot_le_lt. intros L. apply Qle_bool_iff in L. congruence.
  - intros H. destruct (Qle_bool n q) eqn:E; [|reflexivity].
    apply Qle_bool_iff in E. exfalso. exact (Qlt_not_le _ _ H E).
Qed.

Lemma getRiskLevel_above_6 (q : Q) :
  (6 < q)%Q ->
  getRiskLevel (Finite q) = "High" \/ getRiskLevel (Finite q) = "Very High".
Proof.
  intros H. unfold getRiskLevel.
  rewrite (falsy_nonzero q) by (intros E; rewrite E in H; discriminate H).
  destruct (ge (Finite q) 8); [now right|].
  rewrite (ge_true q 6) by (apply Qlt_le_weak; exact H). now left.
Qed.

Lemma getRiskLevel_below_3 (q : Q) :
  (q < 3)%Q ->
  getRiskLevel (Finite q) = "Low" \/ getRiskLevel (Finite q) = "Unknown".
Proof.
  intros H. unfold getRiskLevel.
  destruct (falsy (Finite q)); [now right|].
  rewrite (ge_false q 8), (ge_false q 6), (ge_false q 4); [now left| | |]; lra.
Qed.

(** X15.  The tip box and the risk label are decided by different tests of
    the same score.  When the high drought risk box is shown the label is
    High or Very High, and when the low risk box is shown the label is
    Low or, for a score of zero, Unknown.  A score of exactly 6 is
    labelled High without the box.  Without a risk summary neither box is
    shown. *)
Theorem smartTip_matches_level (score : risk_value) (weatherData : option risk_value) :
  (smartTip (Some score) weatherData = HighDroughtRisk ->
     getRiskLevel score = "High" \/ getRiskLevel score = "Very High") /\
  (smartTip (Some score) weatherData = LowRiskConditions ->
     getRiskLevel score = "Low" \/ getRiskLevel score = "Unknown") /\
  (forall q, score = Finite q -> (q == 6)%Q ->
     getRiskLevel score = "High" /\
     smartTip (Some score) weatherData <> HighDroughtRisk) /\
  (forall q, score = Finite q -> (q == 0)%Q ->
     getRiskLevel score = "Unknown" /\
     smartTip (Some score) weatherData = LowRiskConditions) /\
  smartTip None weatherData <> HighDroughtRisk /\
  smartTip None weatherData <> LowRiskConditions.
Proof.
  assert (W : forall t, t = HighDroughtRisk \/ t = LowRiskConditions ->
              match weatherData with
              | Some humidity => if gt humidity 80 then HighHumidity else NoTip
              | None => NoTip
              end <> t).
  { intros t [-> | ->]; destruct weatherData as [h|];
      try destruct (gt h 80); discriminate. }
  repeat split.
  - unfold smartTip. destruct score as [q| | |].
    + destruct (gt (Finite q) 6) eqn:G.
      * intros _. apply getRiskLevel_above_6. now apply gt_spec.
      * destruct (lt (Finite q) 3); [discriminate|].
        intros H. exfalso. revert H. apply W. now left.
    + cbn. intros H. exfalso. revert H. apply W. now left.
    + cbn. intros H. exfalso. revert H. apply W. now left.
    + cbn. discriminate.
  - unfold smartTip. destruct score as [q| | |].
    + destruct (gt (Finite q) 6) eqn:G; [discriminate|].
      destruct (lt (Finite q) 3) eqn:L.
      * intros _. apply getRiskLevel_below_3. now apply lt_spec.
      * intros H. exfalso. revert H. apply W. now right.
    + cbn. intros H. exfalso. revert H. apply W. now right.
    + cbn. intros H. exfalso. revert H. apply W. now right.
    + intros _. now right.
  - subst score. unfold getRiskLevel.
    rewrite (falsy_nonzero q), (ge_false q 8), (ge_true q 6);
      [reflexivity| | |]; lra.
  - subst score. unfold smartTip.
    assert (G : gt (Finite q) 6 = false).
    { destruct (gt (Finite q) 6) eqn:G; [|reflexivity].
      apply gt_spec in G. lra. }
    rewrite G. destruct (lt (Finite q) 3); [discriminate|].
    apply W. now left.
  - subst score. unfold getRiskLevel. now rewrite (falsy_zero q).
  - subst score. unfold smartTip.
    assert (G : gt (Finite q) 6 = false).
    { destruct (gt (Finite q) 6) eqn:G; [|reflexivity].
      apply gt_spec in G. lra. }
    assert (L : lt (Finite q) 3 = true) by (apply lt_spec; lra).
    now rewrite G, L.
  - apply W. now left.
  - apply W. now right.
Qed.

(** Scores 9.5 and 0 with a humid day, and the score 6 on the boundary. *)
Lemma smartTip_matches_level_witness :
  (getRiskLevel (Finite (19 # 2)) = "High" \/
   getRiskLevel (Finite (19 # 2)) = "Very High") /\
  (getRiskLevel (Finite 0) = "Unknown" /\
   smartTip (Some (Finite 0)) (Some (Finite 90)) = LowRiskConditions) /\
  (getRiskLevel (Finite 6) = "High" /\
   smartTip (Some (Finite 6)) (Some (Finite 90)) <> HighDroughtRisk).
Proof.
  destruct (smartTip_matches_level (Finite (19 # 2)) (Some (Finite 90)))
    as (H1 & _).
  destruct (smartTip_matches_level (Finite 0) (Some (Finite 90)))
    as (_ & _ & _ & H0 & _).
  destruct (smartTip_matches_level (Finite 6) (Some (Finite 90)))
    as (_ & _ & H6 & _).
  split; [apply H1; reflexivity|].
  split; [apply (H0 0%Q); reflexivity | apply (H6 6%Q); reflexivity].
Defined.

End SmartTips.

(** * Helpers of the alert listing *)

Section ListingHelpers.
Import AlertsPanel.

Lemma seconds_lt (x n : Z) : x < 1000 * n -> x / 1000 < n.
Proof. intros H. apply Z.div_lt_upper_bound; lia. Qed.

Lemma seconds_ge (x n : Z) : 1000 * n <= x -> n <= x / 1000.
Proof. intros H. apply Z.div_le_lower_bound; lia. Qed.

Lemma seconds_div (x n : Z) : 0 < n -> x / 1000 / n = x / (1000 * n).
Proof. intros H. apply Z.div_div; lia. Qed.

(** X1.  The age of an alert is shown in whole units that fit the unit's
    range: nothing under a minute (which includes every date in the
    future) reads other than "Just now", minutes run from 1 to 59, hours
    from 1 to 23, and days start at 1.  An invalid date reads
    "NaNd ago". *)
Theorem formatTimeAgo_units (now t : Z) :
  (now - t < 60000 -> formatTimeAgo now (Some t) = "Just now") /\
  (60000 <= now - t < 3600000 ->
     1 <= (now - t) / 60000 <= 59 /\
     formatTimeAgo now (Some t) =
       (string_of_Z ((now - t) / 60000) ++ " min ago")%string) /\
  (3600000 <= now - t < 86400000 ->
     1 <= (now - t) / 3600000 <= 23 /\
     formatTimeAgo now (Some t) =
       (string_of_Z ((now - t) / 3600000) ++ "h ago")%string) /\
  (86400000 <= now - t ->
     1 <= (now - t) / 86400000 /\
     formatTimeAgo now (Some t) =
       (string_of_Z ((now - t) / 86400000) ++ "d ago")%string) /\
  formatTimeAgo now None = "NaNd ago".
Proof.
  unfold formatTimeAgo. cbn [number_lt floor_div string_of_number].
  split; [|split; [|split; [|split; [|reflexivity]]]].
  - intros H. pose proof (seconds_lt (now - t) 60 ltac:(lia)) as L.
    apply Z.ltb_lt in L. now rewrite L.
  - intros [H1 H2].
    pose proof (seconds_ge (now - t) 60 ltac:(lia)) as G.
    pose proof (seconds_lt (now - t) 3600 ltac:(lia)) as L.
    apply Z.ltb_ge in G. apply Z.ltb_lt in L. rewrite G, L.
    rewrite (seconds_div (now - t) 60) by lia. change (1000 * 60) with 60000.
    split; [|reflexivity]. split.
    + apply Z.div_le_lower_bound; lia.
    + assert ((now - t) / 60000 < 60) by (apply Z.div_lt_upper_bound; lia). lia.
  - intros [H1 H2].
    pose proof (seconds_ge (now - t) 60 ltac:(lia)) as G.
    pose proof (seconds_ge (now - t) 3600 ltac:(lia)) as G'.
    pose proof (seconds_lt (now - t) 86400 ltac:(lia)) as L.
    apply Z.ltb_ge in G, G'. apply Z.ltb_lt in L. rewrite G, G', L.
    rewrite (seconds_div (now - t) 3600) by lia.
    change (1000 * 3600) with 3600000.
    split; [|reflexivity]. split.
    + apply Z.div_le_lower_bound; lia.
    + assert ((now - t) / 3600000 < 24) by (apply Z.div_lt_upper_bound; lia). lia.
  - intros H1.
    pose proof (seconds_ge (now - t) 60 ltac:(lia)) as G.
    pose proof (seconds_ge (now - t) 3600 ltac:(lia)) as G'.
    pose proof (seconds_ge (now - t) 86400 ltac:(lia)) as G''.
    apply Z.ltb_ge in G, G', G''. rewrite G, G', G''.
    rewrite (seconds_div (now - t) 86400) by lia.
    change (1000 * 86400) with 86400000.
    split; [|reflexivity]. apply Z.div_le_lower_bound; lia.
Qed.

(** An alert created a second in the future, 59.999 s ago, exactly one
    minute ago, just under an hour ago, just under a day ago and ten
    days ago. *)
Lemma formatTimeAgo_units_witness :
  formatTimeAgo 1000000 (Some 1001000) = "Just now" /\
  formatTimeAgo 1000000 (Some 940001) = "Just now" /\
  formatTimeAgo 1000000 (Some 940000) = "1 min ago" /\
  formatTimeAgo 3599999 (Some 0) = "59 min ago" /\
  formatTimeAgo 86399999 (Some 0) = "23h ago" /\
  formatTimeAgo 864000000 (Some 0) = "10d ago".
Proof.
  destruct (formatTimeAgo_units 1000000 1001000) as (A & _).
  destruct (formatTimeAgo_units 1000000 940001) as (B & _).
  destruct (formatTimeAgo_units 1000000 940000) as (_ & C & _).
  destruct (formatTimeAgo_units 3599999 0) as (_ & D & _).
  destruct (formatTimeAgo_units 86399999 0) as (_ & _ & E & _).
  destruct (formatTimeAgo_units 864000000 0) as (_ & _ & _ & F & _).
  split; [apply A; lia|]. split; [apply B; lia|].
  split; [destruct C as [_ C]; [lia | rewrite C; reflexivity]|].
  split; [destruct D as [_ D]; [lia | rewrite D; reflexivity]|].
  split; [destruct E as [_ E]; [lia | rewrite E; reflexivity]|].
  destruct F as [_ F]; [lia | rewrite F; reflexivity].
Defined.

Lemma lower_char_idem (c : ascii) : lower_char (lower_char c) = lower_char c.
Proof.
  destruct c as [[] [] [] [] [] [] [] []]; reflexivity.
Qed.

Lemma toLowerCase_idem (s : string) : toLowerCase (toLowerCase s) = toLowerCase s.
Proof.
  induction s as [|c s IH]; simpl; [reflexivity|].
  now rewrite lower_char_idem, IH.
Qed.

(** X2.  The colour and the icon of an alert ignore the letter case of its
    severity, and they are the default ones (gray, a bell) exactly when
    the severity is missing or none of critical, high, medium and low.
    Two alerts of recognized severity get the same colour exactly when
    the sort ranks them alike. *)
Theorem severity_style_recognized (a b : Alert) :
  (getSeverityColor (severity_level a) = "bg-gray-50 text-gray-700 border-gray-200"
     <-> recognized a = false) /\
  (getSeverityIcon (severity_level a) = ("Bell", "w-5 h-5 text-gray-500")
     <-> recognized a = false) /\
  (forall s, getSeverityColor (Some (toLowerCase s)) = getSeverityColor (Some s) /\
             getSeverityIcon (Some (toLowerCase s)) = getSeverityIcon (Some s)) /\
  (recognized a = true -> recognized b = true ->
     (getSeverityColor (severity_level a) = getSeverityColor (severity_level b)
        <-> severityOf a = severityOf b)).
Proof.
  unfold getSeverityColor, getSeverityIcon, recognized, severityOf, severityOrder.
  split; [|split; [|split]].
  - destruct (severity_level a) as [s|]; [|tauto]. cbv zeta.
    destruct (String.eqb (toLowerCase s) "critical"); [split; discriminate|].
    destruct (String.eqb (toLowerCase s) "high"); [split; discriminate|].
    destruct (String.eqb (toLowerCase s) "medium"); [split; discriminate|].
    destruct (String.eqb (toLowerCase s) "low"); [split; discriminate|].
    tauto.
  - destruct (severity_level a) as [s|]; [|tauto]. cbv zeta.
    destruct (String.eqb (toLowerCase s) "critical"); [split; discriminate|].
    destruct (String.eqb (toLowerCase s) "high"); [split; discriminate|].
    destruct (String.eqb (toLowerCase s) "medium"); [split; discriminate|].
    destruct (String.eqb (toLowerCase s) "low"); [split; discriminate|].
    tauto.
  - intros s. cbv zeta. now rewrite toLowerCase_idem.
  - destruct (severity_level a) as [s|]; [|discriminate].
    destruct (severity_level b) as [s'|]; [|discriminate]. cbv zeta.
    destruct (String.eqb (toLowerCase s) "critical");
    destruct (String.eqb (toLowerCase s) "high");
    destruct (String.eqb (toLowerCase s) "medium");
    destruct (String.eqb (toLowerCase s) "low");
    destruct (String.eqb (toLowerCase s') "critical");
    destruct (String.eqb (toLowerCase s') "high");
    destruct (String.eqb (toLowerCase s') "medium");
    destruct (String.eqb (toLowerCase s') "low");
    cbn; intros; try discriminate; split; intros; try reflexivity; discriminate.
Qed.

(** A critical alert in capitals and a high alert. *)
Lemma severity_style_recognized_witness :
  getSeverityColor (Some "CRITICAL") = getSeverityColor (Some "critical") /\
  (getSeverityColor (Some "CRITICAL") = getSeverityColor (Some "high")
     <-> severityOf (mkAlert 1 "Drought" (Some "CRITICAL") (Some 0)) =
         severityOf (mkAlert 2 "Heat" (Some "high") (Some 0))).
Proof.
  destruct (severity_style_recognized
              (mkAlert 1 "Drought" (Some "CRITICAL") (Some 0))
              (mkAlert 2 "Heat" (Some "high") (Some 0))) as (_ & _ & L & S).
  split.
  - symmetry. apply (L "CRITICAL").
  - apply S; reflexivity.
Defined.

End ListingHelpers.

(** * More on the sort: sorted input and filtering *)

Section SortedInput.
Context {A : Type}.
Variable comparefn : A -> A -> number.

Lemma insert_before_all (x : A) (l : list A) :
  Forall (before comparefn x) l -> insert comparefn x l = x :: l.
Proof.
  intros H. destruct l as [|y l]; [reflexivity|].
  inversion H as [|? ? Hy _]; subst. unfold before in Hy. simpl.
  destruct (0 <? SortCompare comparefn x y) eqn:E; [|reflexivity].
  apply Z.ltb_lt in E. lia.
Qed.

Lemma sort_sorted_id (l : list A) :
  StronglySorted (before comparefn) l -> sort comparefn l = l.
Proof.
  induction 1 as [|x l Hs IH Hx]; [reflexivity|].
  simpl. rewrite IH. now apply insert_before_all.
Qed.

Variable ok : A -> Prop.
Hypothesis before_trans :
  forall x y z, ok x -> ok y -> ok z ->
    before comparefn x y -> before comparefn y z -> before comparefn x z.

Variable P : A -> bool.

Lemma Forall_filter (Q : A -> Prop) (l : list A) :
  Forall Q l -> Forall Q (List.filter P l).
Proof.
  rewrite !Forall_forall. intros H x Hx. apply H.
  apply filter_In in Hx. tauto.
Qed.

Lemma insert_filter (x : A) (l : list A) :
  ok x -> Forall ok l -> StronglySorted (before comparefn) l ->
  List.filter P (insert comparefn x l) =
  if P x then insert comparefn x (List.filter P l) else List.filter P l.
Proof.
  intros Hx Hl Hs. induction Hs as [|y l Hs IH Hy].
  - simpl. destruct (P x); reflexivity.
  - inversion Hl as [|? ? Oy Ol]; subst. cbn [insert].
    destruct (0 <? SortCompare comparefn x y) eqn:E.
    + cbn [List.filter]. rewrite (IH Ol).
      destruct (P x), (P y); try reflexivity.
      cbn [insert]. now rewrite E.
    + apply Z.ltb_ge in E.
      assert (B : Forall (before comparefn x) (y :: l)).
      { constructor; [exact E|].
        rewrite Forall_forall in *. intros z Hz.
        apply before_trans with y; auto. }
      cbn [List.filter]. destruct (P x); [|reflexivity].
      symmetry. apply insert_before_all.
      apply (Forall_filter _ (y :: l)). exact B.
Qed.

Hypothesis before_total :
  forall x y, ok x -> ok y -> 0 < SortCompare comparefn x y -> before comparefn y x.

Lemma sort_filter (l : list A) :
  Forall ok l ->
  List.filter P (sort comparefn l) = sort comparefn (List.filter P l).
Proof.
  induction l as [|x l IH]; intros H; [reflexivity|].
  inversion H as [|? ? Hx Hl]; subst. cbn [sort List.filter].
  rewrite insert_filter.
  - rewrite (IH Hl). destruct (P x); reflexivity.
  - exact Hx.
  - now apply sort_ok.
  - now apply sort_sorted with (ok := ok).
Qed.

End SortedInput.

Lemma filter_all {A : Type} (P : A -> bool) (l : list A) :
  Forall (fun x => P x = true) l -> List.filter P l = l.
Proof.
  induction 1 as [|x l Hx Hl IH]; [reflexivity|].
  simpl. now rewrite Hx, IH.
Qed.

Section FeedTabs.
Import AlertsPanel.

Lemma selectAlerts_all (l : list Alert) : selectAlerts l "all" = l.
Proof. reflexivity. Qed.

Lemma selectAlerts_tab (l : list Alert) (key : string) :
  String.eqb key "all" = false ->
  selectAlerts l key = List.filter (matches_filter key) l.
Proof. unfold selectAlerts. now intros ->. Qed.

Lemma comparable_sorted (l : list Alert) :
  Forall comparable l -> StronglySorted (before compareAlerts) (sort compareAlerts l).
Proof.
  apply sort_sorted with (ok := comparable).
  - apply before_comparable_trans.
  - apply before_comparable_total.
Qed.

(** X4.  Sorting and narrowing to a tab commute: every tab lists its alerts
    in the order they have under All, and handing a listed feed to
    [filterAlerts] again gives it back unchanged.  Stated for alerts whose
    severity evaluates to a rank and whose date is valid. *)
Theorem filterAlerts_tab_order (l : list Alert) (key : string) :
  Forall comparable l ->
  filterAlerts l key = selectAlerts (filterAlerts l "all") key /\
  filterAlerts (filterAlerts l key) key = filterAlerts l key.
Proof.
  intros H.
  assert (E : filterAlerts l key = selectAlerts (filterAlerts l "all") key).
  { unfold filterAlerts at 1 2. rewrite selectAlerts_all.
    destruct (String.eqb key "all") eqn:K.
    - apply String.eqb_eq in K. subst key. now rewrite !selectAlerts_all.
    - rewrite !selectAlerts_tab by assumption. symmetry.
      apply sort_filter with (ok := comparable).
      + apply before_comparable_trans.
      + apply before_comparable_total.
      + exact H. }
  split; [exact E|].
  assert (S : selectAlerts (filterAlerts l key) key = filterAlerts l key).
  { destruct (String.eqb key "all") eqn:K.
    - apply String.eqb_eq in K. subst key. apply selectAlerts_all.
    - rewrite selectAlerts_tab by assumption. apply filter_all.
      rewrite Forall_forall. intros a Ha. unfold filterAlerts in Ha.
      apply sort_In in Ha. rewrite selectAlerts_tab in Ha by assumption.
      apply filter_In in Ha. tauto. }
  unfold filterAlerts at 1. rewrite S. unfold filterAlerts.
  apply sort_sorted_id. apply comparable_sorted.
  now apply selectAlerts_comparable.
Qed.

(** Four alerts under the Critical tab and under All. *)
Lemma filterAlerts_tab_order_witness :
  filterAlerts
    [mkAlert 3 "Rain" (Some "low") (Some 50);
     mkAlert 8 "Heat" (Some "Critical") (Some 20);
     mkAlert 5 "Wind" (Some "high") (Some 20);
     mkAlert 1 "Drought" (Some "CRITICAL") (Some 30)] "critical" =
    [mkAlert 1 "Drought" (Some "CRITICAL") (Some 30);
     mkAlert 8 "Heat" (Some "Critical") (Some 20)] /\
  filterAlerts
    (filterAlerts
       [mkAlert 3 "Rain" (Some "low") (Some 50);
        mkAlert 8 "Heat" (Some "Critical") (Some 20);
        mkAlert 5 "Wind" (Some "high") (Some 20);
        mkAlert 1 "Drought" (Some "CRITICAL") (Some 30)] "critical") "critical" =
    [mkAlert 1 "Drought" (Some "CRITICAL") (Some 30);
     mkAlert 8 "Heat" (Some "Critical") (Some 20)].
Proof.
  destruct (filterAlerts_tab_order
              [mkAlert 3 "Rain" (Some "low") (Some 50);
               mkAlert 8 "Heat" (Some "Critical") (Some 20);
               mkAlert 5 "Wind" (Some "high") (Some 20);
               mkAlert 1 "Drought" (Some "CRITICAL") (Some 30)] "critical")
    as (H1 & H2).
  - repeat (apply Forall_cons || apply Forall_nil);
      eexists; eexists; reflexivity.
  - split; [rewrite H1 | rewrite H2]; reflexivity.
Defined.

Lemma filterAlerts_In (l : list Alert) (key : string) (a : Alert) :
  In a (filterAlerts l key) <->
  In a l /\ (String.eqb key "all" = true \/ matches_filter key a = true).
Proof.
  unfold filterAlerts. rewrite sort_In. unfold selectAlerts.
  destruct (String.eqb key "all"); cbn [negb].
  - split; [auto | tauto].
  - rewrite filter_In. split; [tauto|].
    intros [H [D|M]]; [discriminate | auto].
Qed.

(** X3.  Whatever the alerts are, invalid dates included, the feed neither
    drops nor repeats nor invents an alert: under All it is a
    rearrangement of the fetched list, and under a tab it lists exactly
    the fetched alerts whose severity is the tab's. *)
Theorem filterAlerts_keeps_alerts (l : list Alert) (key : string) :
  Permutation (filterAlerts l key) (selectAlerts l key) /\
  Permutation (filterAlerts l "all") l /\
  List.length (filterAlerts l "all") = List.length l /\
  (forall a, In a (filterAlerts l key) <->
             In a l /\ (String.eqb key "all" = true \/ matches_filter key a = true)).
Proof.
  split; [apply sort_perm|]. split; [apply sort_perm|].
  split; [apply Permutation_length, sort_perm|].
  intros a. apply filterAlerts_In.
Qed.

Lemma matches_filter_severity_is (key : string) (a : Alert) :
  toLowerCase key = key -> matches_filter key a = severity_is key a.
Proof.
  intros H. unfold matches_filter, severity_is. now rewrite H.
Qed.

Lemma tab_count_listed (l : list Alert) (key : string) :
  toLowerCase key = key -> String.eqb key "all" = false ->
  Z.of_nat (List.length (List.filter (severity_is key) l)) =
  Z.of_nat (List.length (filterAlerts l key)).
Proof.
  intros L K. f_equal. unfold filterAlerts.
  rewrite (Permutation_length (sort_perm compareAlerts _)).
  rewrite selectAlerts_tab by assumption. f_equal.
  apply filter_ext. intros a. symmetry. now apply matches_filter_severity_is.
Qed.

(** X5.  The number beside each tab is the number of alerts that choosing
    the tab lists. *)
Theorem tab_counts_match_listing (l : list Alert) :
  Forall (fun t => tab_count t = Z.of_nat (List.length (filterAlerts l (tab_key t))))
         (tabs l).
Proof.
  unfold tabs. repeat constructor; cbn [tab_count tab_key].
  - f_equal. symmetry. apply Permutation_length, sort_perm.
  - now apply tab_count_listed.
  - now apply tab_count_listed.
  - now apply tab_count_listed.
Qed.

(** X6.  Every alert listed under a tab other than All has the tab's
    severity, so an alert of severity high, for which there is no tab, is
    listed under All only. *)
Theorem tabs_list_own_severity (l : list Alert) (t : tab) (a : Alert) :
  In t (tabs l) ->
  In a (filterAlerts l (tab_key t)) ->
  (tab_key t = "all" \/ severity_is (tab_key t) a = true) /\
  (severity_is "high" a = true -> tab_key t = "all").
Proof.
  intros Ht Ha. apply filterAlerts_In in Ha. destruct Ha as [_ Ha].
  assert (C : tab_key t = "all" \/
              (toLowerCase (tab_key t) = tab_key t /\
               String.eqb (tab_key t) "high" = false)).
  { unfold tabs in Ht. cbn in Ht.
    destruct Ht as [<-|[<-|[<-|[<-|[]]]]]; cbn; auto. }
  destruct C as [C|[C1 C2]]; [auto|].
  destruct Ha as [Ha|Ha].
  - apply String.eqb_eq in Ha. auto.
  - rewrite matches_filter_severity_is in Ha by assumption.
    split; [now right|]. intros Hh. exfalso.
    unfold severity_is in *. destruct (severity_level a) as [s|]; [|discriminate].
    apply String.eqb_eq in Ha, Hh. rewrite Hh in Ha. subst.
    rewrite <- Ha in C2. discriminate.
Qed.

(** A high and a medium alert: the Medium tab lists the medium one. *)
Lemma tabs_list_own_severity_witness :
  severity_is "medium" (mkAlert 2 "Wind" (Some "Medium") (Some 20)) = true /\
  (severity_is "high" (mkAlert 2 "Wind" (Some "Medium") (Some 20)) = true ->
   "medium" = "all").
Proof.
  destruct (tabs_list_own_severity
              [mkAlert 1 "Heat" (Some "high") (Some 30);
               mkAlert 2 "Wind" (Some "Medium") (Some 20)]
              (mkTab "medium" "Medium" 1)
              (mkAlert 2 "Wind" (Some "Medium") (Some 20))) as (H1 & H2).
  - right. right. left. reflexivity.
  - left. reflexivity.
  - split; [|exact H2]. destruct H1 as [H1|H1]; [discriminate H1 | exact H1].
Defined.

End FeedTabs.

(** * The panel over time *)

Section PanelRuns.
Import AlertsPanel.

Lemma step_error (userLocation : option location) (e : event)
    (p : Panel) (env : Env) (failed : bool) :
  error p = (if failed then Some "Failed to load alerts. Please try again." else None) ->
  error (fst (step userLocation e p env)) =
  (if failed_since_refresh [e] failed
   then Some "Failed to load alerts. Please try again." else None).
Proof.
  intros H. destruct e as [|[r|]|key|i]; cbn; try exact H; try reflexivity.
  destruct (nth_error (filteredAlerts p) i) as [a|]; [|exact H].
  unfold markAsRead. destruct (negb (includes (storedReadAlerts env) (id a)));
    exact H.
Qed.

Lemma failed_since_refresh_cons (e : event) (es : list event) (failed : bool) :
  failed_since_refresh (e :: es) failed =
  failed_since_refresh es (failed_since_refresh [e] failed).
Proof.
  destruct e as [|[r|]|key|i]; reflexivity.
Qed.

Lemma run_error (userLocation : option location) (es : list event) :
  forall (p : Panel) (env : Env) (failed : bool),
  error p = (if failed then Some "Failed to load alerts. Please try again." else None) ->
  error (fst (run userLocation es p env)) =
  (if failed_since_refresh es failed
   then Some "Failed to load alerts. Please try again." else None).
Proof.
  induction es as [|e es IH]; intros p env failed H; [exact H|].
  cbn [run]. pose proof (step_error userLocation e p env failed H) as S.
  destruct (step userLocation e p env) as [p1 env1].
  rewrite failed_since_refresh_cons. now apply IH.
Qed.

(** X8.  The error banner is on display exactly when a fetch has been
    rejected since the last fetch started.  Starting a fetch is the only
    thing that clears it: a fetch that succeeds afterwards, such as an
    overlapping one, replaces the alerts and leaves the banner. *)
Theorem error_banner_since_refresh (userLocation : option location) (env0 : Env)
    (es : list event) (r : response) :
  error_banner
    (view (fst (run userLocation es (fst (mount userLocation env0))
                  (snd (mount userLocation env0))))
          (snd (run userLocation es (fst (mount userLocation env0))
                  (snd (mount userLocation env0))))) =
  (if failed_since_refresh es false
   then Some "Failed to load alerts. Please try again." else None) /\
  error_banner
    (view (fst (run userLocation [Refresh; Refresh; Settle Rejected; Settle (Resolved r)]
                  (fst (mount userLocation env0)) (snd (mount userLocation env0))))
          (snd (run userLocation [Refresh; Refresh; Settle Rejected; Settle (Resolved r)]
                  (fst (mount userLocation env0)) (snd (mount userLocation env0))))) =
  Some "Failed to load alerts. Please try again.".
Proof.
  assert (G : forall es',
    error_banner
      (view (fst (run userLocation es' (fst (mount userLocation env0))
                    (snd (mount userLocation env0))))
            (snd (run userLocation es' (fst (mount userLocation env0))
                    (snd (mount userLocation env0))))) =
    (if failed_since_refresh es' false
     then Some "Failed to load alerts. Please try again." else None)).
  { intros es'. unfold view. cbn [error_banner].
    rewrite (run_error userLocation es' _ _ false) by reflexivity.
    destruct (failed_since_refresh es' false); reflexivity. }
  split; [apply G|]. rewrite G. reflexivity.
Qed.

Lemma step_keeps_read (userLocation : option location) (e : event)
    (p : Panel) (env : Env) (alertId : Z) :
  isAlertRead env alertId = true ->
  isAlertRead (snd (step userLocation e p env)) alertId = true.
Proof.
  intros H. destruct e as [|o|key|i]; cbn [step snd]; try exact H.
  destruct (nth_error (filteredAlerts p) i) as [a|]; [|exact H].
  now apply markAsRead_keeps_read.
Qed.

Lemma step_requests (userLocation : option location) (e : event)
    (p : Panel) (env : Env) :
  Forall (fun r => url r = "/api/v1/alerts/") (requests env) ->
  Forall (fun r => url r = "/api/v1/alerts/")
         (requests (snd (step userLocation e p env))).
Proof.
  intros H. destruct e as [|o|key|i]; cbn [step snd]; try exact H.
  - cbn. apply Forall_app. split; [exact H|]. repeat constructor.
  - destruct (nth_error (filteredAlerts p) i) as [a|]; [|exact H].
    unfold markAsRead. destruct (negb (includes (storedReadAlerts env) (id a)));
      exact H.
Qed.

End PanelRuns.

(** * The page over time *)

Section PageRuns.
Import AlertsPanel.

(** What no event of the page undoes or breaks: the alerts stored as
    read, and the requests all going to the feed. *)
Lemma page_step_keeps (e : App.event) (s : App.State) (alertId : Z) :
  (isAlertRead (App.env s) alertId = true ->
   isAlertRead (App.env (App.step e s)) alertId = true) /\
  (Forall (fun r => url r = "/api/v1/alerts/") (requests (App.env s)) ->
   Forall (fun r => url r = "/api/v1/alerts/") (requests (App.env (App.step e s)))).
Proof.
  destruct e as [view|l|k e']; cbn [App.step].
  - unfold App.setCurrentView. destruct (String.eqb view "alerts");
      [destruct (App.mainContent s)|]; cbn; split; auto.
    intros H. apply Forall_app. split; [exact H|]. repeat constructor.
  - unfold App.setUserLocation. cbn. destruct (App.mainContent s); cbn;
      split; auto; intros H; repeat (apply Forall_app; split);
      try exact H; repeat constructor.
  - destruct k.
    + pose proof (step_keeps_read (App.userLocation s) e' (App.rightColumn s)
                    (App.env s) alertId) as R.
      pose proof (step_requests (App.userLocation s) e' (App.rightColumn s)
                    (App.env s)) as Q.
      destruct (step (App.userLocation s) e' (App.rightColumn s) (App.env s))
        as [p1 env1]. cbn in *. split; assumption.
    + destruct (App.mainContent s) as [m|]; [|split; auto].
      pose proof (step_keeps_read (App.userLocation s) e' m (App.env s) alertId) as R.
      pose proof (step_requests (App.userLocation s) e' m (App.env s)) as Q.
      destruct (step (App.userLocation s) e' m (App.env s)) as [p1 env1].
      cbn in *. split; assumption.
Qed.

(** X10.  Once an alert is stored as read it stays read through everything
    that can happen on the page: clicks in either panel, fetches, filter
    and view changes, a new location. *)
Theorem read_marks_persist (es : list App.event) (s : App.State) (alertId : Z) :
  isAlertRead (App.env s) alertId = true ->
  isAlertRead (App.env (App.run es s)) alertId = true.
Proof.
  unfold App.run. revert s.
  induction es as [|e es IH]; intros s H; [exact H|].
  cbn [fold_left]. apply IH. now apply page_step_keeps.
Qed.

(** Alert 7 is read in the middle panel; the view is left and entered
    again and the feed is fetched anew. *)
Lemma read_marks_persist_witness :
  isAlertRead
    (App.env
       (App.run
          [App.SetCurrentView "dashboard"; App.SetCurrentView "alerts";
           App.At App.MainContent
             (Settle (Resolved (Paginated [mkAlert 7 "Heat" (Some "high") (Some 20)])))]
          (App.run
             [App.SetCurrentView "alerts";
              App.At App.MainContent
                (Settle (Resolved (Paginated [mkAlert 7 "Heat" (Some "high") (Some 20)])));
              App.At App.MainContent (Click 0)]
             (App.start None (mkEnv None []))))) 7 = true.
Proof.
  apply read_marks_persist. reflexivity.
Defined.

(** X12.  The panels talk to one endpoint only: every request that the page
    sends through them, on mounting, refreshing or a new location, is a
    GET of the feed at [/api/v1/alerts/]. *)
Theorem only_feed_requests (es : list App.event) (l : option location) :
  Forall (fun r => url r = "/api/v1/alerts/")
         (requests (App.env (App.run es (App.start l (mkEnv None []))))).
Proof.
  unfold App.run.
  assert (G : forall s,
    Forall (fun r => url r = "/api/v1/alerts/") (requests (App.env s)) ->
    Forall (fun r => url r = "/api/v1/alerts/")
           (requests (App.env (fold_left (fun s e => App.step e s) es s)))).
  { induction es as [|e es IH]; intros s H; [exact H|].
    cbn [fold_left]. apply IH. now apply (page_step_keeps e s 0). }
  apply G. cbn. repeat constructor.
Qed.

End PageRuns.

(** * Bounds that hold on the page *)

Section PageBounds.
Import AlertsPanel.

Lemma unreadAlerts_length (env : Env) (l : list Alert) :
  (List.length (unreadAlerts env l) <= List.length l)%nat.
Proof. apply filter_length_le. Qed.

Lemma step_count_bounded (userLocation : option location) (e : event)
    (p : Panel) (env : Env) :
  0 <= unreadCount p <= Z.of_nat (List.length (alerts p)) ->
  0 <= unreadCount (fst (step userLocation e p env))
    <= Z.of_nat (List.length (alerts (fst (step userLocation e p env)))).
Proof.
  intros H. destruct e as [|[r|]|key|i]; cbn [step fst]; try exact H.
  - change (0 <= Z.of_nat (List.length
                      (unreadAlerts env (match r with Paginated l => l | Bare l => l end)))
              <= Z.of_nat (List.length (match r with Paginated l => l | Bare l => l end))).
    pose proof (unreadAlerts_length env
                  (match r with Paginated l => l | Bare l => l end)). lia.
  - destruct (nth_error (filteredAlerts p) i) as [a|]; [|exact H].
    unfold markAsRead. destruct (negb (includes (storedReadAlerts env) (id a)));
      cbn; lia.
Qed.

Lemma page_step_count_bounded (k : App.slot) (e : App.event) (s : App.State) :
  (forall p, App.panel_at k s = Some p ->
     0 <= unreadCount p <= Z.of_nat (List.length (alerts p))) ->
  forall p, App.panel_at k (App.step e s) = Some p ->
    0 <= unreadCount p <= Z.of_nat (List.length (alerts p)).
Proof.
  intros H p. destruct e as [view|l|k' e']; cbn [App.step].
  - unfold App.setCurrentView. destruct (String.eqb view "alerts");
      [destruct (App.mainContent s) as [m|] eqn:M|];
      destruct k; cbn; intros Hp; try discriminate;
      try (apply H; cbn; congruence).
    injection Hp as <-. cbn. lia.
  - unfold App.setUserLocation. cbn.
    destruct (App.mainContent s) as [m|] eqn:M; destruct k; cbn; intros Hp;
      try discriminate; injection Hp as <-; cbn; apply H; cbn; congruence.
  - destruct k'.
    + pose proof (step_count_bounded (App.userLocation s) e' (App.rightColumn s)
                    (App.env s)) as B.
      destruct (step (App.userLocation s) e' (App.rightColumn s) (App.env s))
        as [p1 env1]. cbn [fst] in B.
      destruct k; cbn; intros Hp.
      * injection Hp as <-. apply B. apply H. reflexivity.
      * apply H. exact Hp.
    + destruct (App.mainContent s) as [m|] eqn:M; [|apply H].
      pose proof (step_count_bounded (App.userLocation s) e' m (App.env s)) as B.
      destruct (step (App.userLocation s) e' m (App.env s)) as [p1 env1].
      cbn [fst] in B. destruct k; cbn; intros Hp.
      * injection Hp as <-. apply H. reflexivity.
      * injection Hp as <-. apply B. apply H. cbn. exact M.
Qed.

(** X9.  Whatever happens on the page, and even while the count of one panel
    lags behind the other's clicks, a panel never shows a negative count
    nor one above the number of alerts it has fetched. *)
Theorem unreadCount_bounded (k : App.slot) (l : option location) (env0 : Env)
    (es : list App.event) (p : Panel) :
  App.panel_at k (App.run es (App.start l env0)) = Some p ->
  0 <= unreadCount p <= Z.of_nat (List.length (alerts p)).
Proof.
  unfold App.run.
  assert (G : forall s,
    (forall q, App.panel_at k s = Some q ->
       0 <= unreadCount q <= Z.of_nat (List.length (alerts q))) ->
    forall q, App.panel_at k (fold_left (fun s e => App.step e s) es s) = Some q ->
      0 <= unreadCount q <= Z.of_nat (List.length (alerts q))).
  { induction es as [|e es IH]; intros s H; [exact H|].
    cbn [fold_left]. apply IH. now apply page_step_count_bounded. }
  apply G. intros q. destruct k; cbn; intros Hq; [|discriminate].
  injection Hq as <-. cbn. lia.
Qed.

(** The scenario in which the right column lags behind: its count is 1
    with one fetched alert. *)
Lemma unreadCount_bounded_witness :
  0 <= unreadCount
         (App.rightColumn
            (App.run
               [App.At App.RightColumn
                  (Settle (Resolved (Paginated [mkAlert 7 "Heat" (Some "high") (Some 20)])));
                App.SetCurrentView "alerts";
                App.At App.MainContent
                  (Settle (Resolved (Paginated [mkAlert 7 "Heat" (Some "high") (Some 20)])));
                App.At App.MainContent (Click 0)]
               (App.start None (mkEnv None [])))) <= 1.
Proof.
  apply (unreadCount_bounded App.RightColumn None (mkEnv None [])
           [App.At App.RightColumn
              (Settle (Resolved (Paginated [mkAlert 7 "Heat" (Some "high") (Some 20)])));
            App.SetCurrentView "alerts";
            App.At App.MainContent
              (Settle (Resolved (Paginated [mkAlert 7 "Heat" (Some "high") (Some 20)])));
            App.At App.MainContent (Click 0)]).
  reflexivity.
Defined.

Lemma includes_In (l : list Z) (x : Z) : includes l x = true <-> In x l.
Proof.
  unfold includes. rewrite existsb_exists. split.
  - intros (y & Hy & E). apply Z.eqb_eq in E. now subst.
  - intros H. exists x. split; [exact H | apply Z.eqb_refl].
Qed.

Lemma markAsRead_stored (alertId : Z) (p : Panel) (env : Env) :
  NoDup (storedReadAlerts env) ->
  NoDup (storedReadAlerts (snd (markAsRead alertId p env))) /\
  exists more, storedReadAlerts (snd (markAsRead alertId p env)) =
               (storedReadAlerts env ++ more)%list.
Proof.
  intros N. unfold markAsRead.
  destruct (includes (storedReadAlerts env) alertId) eqn:I; cbn.
  - split; [exact N|]. exists []. now rewrite app_nil_r.
  - split; [|now exists [alertId]].
    apply NoDup_app; [exact N | repeat constructor; auto|].
    intros x Hx [<-|[]]. apply includes_In in Hx. congruence.
Qed.

Lemma step_stored (userLocation : option location) (e : event)
    (p : Panel) (env : Env) :
  NoDup (storedReadAlerts env) ->
  NoDup (storedReadAlerts (snd (step userLocation e p env))) /\
  exists more, storedReadAlerts (snd (step userLocation e p env)) =
               (storedReadAlerts env ++ more)%list.
Proof.
  intros N.
  assert (Same : NoDup (storedReadAlerts env) /\
                 exists more, storedReadAlerts env = (storedReadAlerts env ++ more)%list).
  { split; [exact N|]. exists []. now rewrite app_nil_r. }
  destruct e as [|o|key|i]; cbn [step snd]; try exact Same.
  destruct (nth_error (filteredAlerts p) i) as [a|]; [|exact Same].
  now apply markAsRead_stored.
Qed.

Lemma page_step_stored (e : App.event) (s : App.State) :
  NoDup (storedReadAlerts (App.env s)) ->
  NoDup (storedReadAlerts (App.env (App.step e s))) /\
  exists more, storedReadAlerts (App.env (App.step e s)) =
               (storedReadAlerts (App.env s) ++ more)%list.
Proof.
  intros N.
  assert (Same : NoDup (storedReadAlerts (App.env s)) /\
                 exists more, storedReadAlerts (App.env s) =
                              (storedReadAlerts (App.env s) ++ more)%list).
  { split; [exact N|]. exists []. now rewrite app_nil_r. }
  destruct e as [view|l|k e']; cbn [App.step].
  - unfold App.setCurrentView. destruct (String.eqb view "alerts");
      [destruct (App.mainContent s)|]; exact Same.
  - unfold App.setUserLocation. cbn. destruct (App.mainContent s); exact Same.
  - destruct k.
    + pose proof (step_stored (App.userLocation s) e' (App.rightColumn s)
                    (App.env s) N) as R.
      destruct (step (App.userLocation s) e' (App.rightColumn s) (App.env s))
        as [p1 env1]. exact R.
    + destruct (App.mainContent s) as [m|]; [|exact Same].
      pose proof (step_stored (App.userLocation s) e' m (App.env s) N) as R.
      destruct (step (App.userLocation s) e' m (App.env s)) as [p1 env1].
      exact R.
Qed.

(** X11.  The stored read list only grows at its end and never holds an id
    twice, however often and in whichever panel alerts are clicked. *)
Theorem readAlerts_grow_without_repeats (es : list App.event) (s : App.State) :
  NoDup (storedReadAlerts (App.env s)) ->
  NoDup (storedReadAlerts (App.env (App.run es s))) /\
  exists more, storedReadAlerts (App.env (App.run es s)) =
               (storedReadAlerts (App.env s) ++ more)%list.
Proof.
  unfold App.run. revert s.
  induction es as [|e es IH]; intros s N; cbn [fold_left].
  - split; [exact N|]. exists []. now rewrite app_nil_r.
  - destruct (page_step_stored e s N) as (N1 & more1 & E1).
    destruct (IH _ N1) as (N2 & more2 & E2).
    split; [exact N2|]. exists (more1 ++ more2)%list.
    now rewrite E2, E1, app_assoc.
Qed.

(** Alert 4 was read before; alert 7 is clicked in both panels. *)
Lemma readAlerts_grow_without_repeats_witness :
  NoDup
    (storedReadAlerts
       (App.env
          (App.run
             [App.At App.RightColumn
                (Settle (Resolved (Paginated [mkAlert 7 "Heat" (Some "high") (Some 20)])));
              App.SetCurrentView "alerts";
              App.At App.MainContent
                (Settle (Resolved (Paginated [mkAlert 7 "Heat" (Some "high") (Some 20)])));
              App.At App.MainContent (Click 0);
              App.At App.RightColumn (Click 0)]
             (App.start None (mkEnv (Some [4]) []))))) /\
  storedReadAlerts
    (App.env
       (App.run
          [App.At App.RightColumn
             (Settle (Resolved (Paginated [mkAlert 7 "Heat" (Some "high") (Some 20)])));
           App.SetCurrentView "alerts";
           App.At App.MainContent
             (Settle (Resolved (Paginated [mkAlert 7 "Heat" (Some "high") (Some 20)])));
           App.At App.MainContent (Click 0);
           App.At App.RightColumn (Click 0)]
          (App.start None (mkEnv (Some [4]) [])))) = [4; 7].
Proof.
  split; [|reflexivity].
  apply (readAlerts_grow_without_repeats
           [App.At App.RightColumn
              (Settle (Resolved (Paginated [mkAlert 7 "Heat" (Some "high") (Some 20)])));
            App.SetCurrentView "alerts";
            App.At App.MainContent
              (Settle (Resolved (Paginated [mkAlert 7 "Heat" (Some "high") (Some 20)])));
            App.At App.MainContent (Click 0);
            App.At App.RightColumn (Click 0)]
           (App.start None (mkEnv (Some [4]) []))).
  cbn. repeat constructor. intros [].
Defined.

End PageBounds.

Section RiskLabel.
Import WelcomeCard.

(** X14.  The label and the colour of a risk score never drift apart: two
    scores get the same label exactly when they get the same colour. *)
Theorem risk_label_matches_colour (r1 r2 : risk_value) :
  getRiskLevel r1 = getRiskLevel r2 <-> getRiskColor r1 = getRiskColor r2.
Proof.
  unfold getRiskLevel, getRiskColor.
  destruct (falsy r1), (ge r1 8), (ge r1 6), (ge r1 4),
           (falsy r2), (ge r2 8), (ge r2 6), (ge r2 4);
    split; intros H; try reflexivity; discriminate H.
Qed.

End RiskLabel.

(** * Loading the welcome card *)

Section CardData.
Import WelcomeCard.

(** X18.  When either request of the welcome card fails, the card ends
    up with the mock weather and the mock risk summary, whatever the
    other request answered, so it shows a Moderate risk in yellow and no
    tip; a weather answer that had already arrived is discarded, and
    after a failed weather request the risk endpoint is not asked at all.
    When both requests are answered the first result of each is shown,
    and an answer without results leaves the earlier data on display.
    Loading is over in every case. *)
Theorem fetchLocationData_outcomes (w : answer weather) (r : answer risk) (c : Card) :
  (w = Failed \/ r = Failed ->
     fst (fetchLocationData w r c) = mkCard (Some mockWeather) (Some mockRisk) false /\
     riskLabel (fst (fetchLocationData w r c)) = Some ("Moderate", "text-yellow-500") /\
     cardTip (fst (fetchLocationData w r c)) = NoTip) /\
  (w = Failed -> snd (fetchLocationData w r c) = ["/api/v1/weather/"]) /\
  (forall ws rs, w = Answered ws -> r = Answered rs ->
     weatherData (fst (fetchLocationData w r c)) =
       match first_result ws with Some x => Some x | None => weatherData c end /\
     riskSummary (fst (fetchLocationData w r c)) =
       match first_result rs with Some y => Some y | None => riskSummary c end) /\
  (w = Answered (Some []) \/ w = Answered None -> r <> Failed ->
     weatherData (fst (fetchLocationData w r c)) = weatherData c) /\
  loading (fst (fetchLocationData w r c)) = false.
Proof.
  split; [|split; [|split; [|split]]].
  - intros [-> | ->]; [|destruct w]; repeat split.
  - intros ->. reflexivity.
  - intros ws rs -> ->. split; reflexivity.
  - intros [-> | ->] H; destruct r; try reflexivity; congruence.
  - destruct w, r; reflexivity.
Qed.

(** The weather is answered with a real record and the risk request
    fails: the card shows the mock weather. *)
Lemma fetchLocationData_outcomes_witness :
  weatherData
    (fst (fetchLocationData
            (Answered (Some [mkWeather (Finite 19) (Finite 90) (Some "Rain")]))
            Failed (mkCard None None false))) = Some mockWeather /\
  riskLabel
    (fst (fetchLocationData
            (Answered (Some [mkWeather (Finite 19) (Finite 90) (Some "Rain")]))
            Failed (mkCard None None false))) = Some ("Moderate", "text-yellow-500").
Proof.
  destruct (fetchLocationData_outcomes
              (Answered (Some [mkWeather (Finite 19) (Finite 90) (Some "Rain")]))
              Failed (mkCard None None false)) as (H & _).
  destruct H as (H1 & H2 & _); [now right|].
  split; [rewrite H1; reflexivity | exact H2].
Defined.

End CardData.
